(** * Reading library specifications: the libdoc JSON and XML builders

    A shallow embedding of [robot.libdocpkg.jsonbuilder.JsonDocBuilder] and
    [robot.libdocpkg.xmlbuilder.XmlDocBuilder], and the properties of the
    documentation model they build.

    Python values are embedded as the type [pyval], exceptions as explicit
    results.  Text is ASCII text; JSON numbers are integers. *)

From stdpp Require Import base option list strings gmap.
From Stdlib Require Import ZArith Ascii String.

Set Warnings "-register-all".
Local Open Scope string_scope.
Local Open Scope Z_scope.

(** ** Values, exceptions and results *)

(** The values loaded from a JSON document, which are also the values the
    builders store in the documentation model.  A [PDict] keeps its entries
    in insertion order, with distinct keys. *)
Inductive pyval : Type :=
| PNone
| PBool (b : bool)
| PInt (z : Z)
| PStr (s : string)
| PList (l : list pyval)
| PDict (d : list (string * pyval)).

(** The exceptions the builders raise or let escape. [DataError] is the one
    domain error, [robot.errors.DataError]; the others are Python's own. *)
Inductive exn : Type :=
| DataError (msg : string)
| KeyError (key : pyval)
| TypeError
| AttributeError
| ValueError
| OSError
| ParseError.

Inductive result (A : Type) : Type :=
| Ok (a : A)
| Raise (e : exn).
Arguments Ok {A} a.
Arguments Raise {A} e.

Definition is_Ok {A} (r : result A) : bool :=
  match r with Ok _ => true | Raise _ => false end.

Definition is_DataError (e : exn) : bool :=
  match e with DataError _ => true | _ => false end.

Definition result_bind {A B} (f : A → result B) (r : result A) : result B :=
  match r with Ok a => f a | Raise e => Raise e end.

#[global] Instance result_ret : MRet result := λ A a, Ok a.
#[global] Instance result_mbind : MBind result := λ A B f r, result_bind f r.
#[global] Instance result_fmap : FMap result :=
  λ A B f r, match r with Ok a => Ok (f a) | Raise e => Raise e end.

(** A list comprehension whose body may raise: the elements are evaluated in
    order and the first exception ends the comprehension. *)
Fixpoint comprehension {A B} (f : A → result B) (l : list A) : result (list B) :=
  match l with
  | [] => Ok []
  | a :: l' => b ← f a; bs ← comprehension f l'; Ok (b :: bs)
  end.

(** ** Python built-ins used by the builders *)

Fixpoint assoc {V} (k : string) (d : list (string * V)) : option V :=
  match d with
  | [] => None
  | (k', v) :: d' => if String.eqb k k' then Some v else assoc k d'
  end.

(** [v[k]] for a string key. *)
Definition getitem (v : pyval) (k : string) : result pyval :=
  match v with
  | PDict d => match assoc k d with Some x => Ok x | None => Raise (KeyError (PStr k)) end
  | _ => Raise TypeError
  end.

(** [v.get(k, default)]; [v.get(k)] is [get v k PNone]. *)
Definition get (v : pyval) (k : string) (default : pyval) : result pyval :=
  match v with
  | PDict d => Ok (match assoc k d with Some x => x | None => default end)
  | _ => Raise AttributeError
  end.

(** Iterating a value: the elements of a list, the keys of a dict, the
    characters of a string. *)
Fixpoint chars (s : string) : list pyval :=
  match s with
  | EmptyString => []
  | String a s' => PStr (String a EmptyString) :: chars s'
  end.

Definition iter (v : pyval) : result (list pyval) :=
  match v with
  | PList l => Ok l
  | PDict d => Ok (map (λ kv, PStr (fst kv)) d)
  | PStr s => Ok (chars s)
  | _ => Raise TypeError
  end.

(** [int(s)] on text: optional surrounding whitespace (tab to carriage
    return, and the space), an optional sign, decimal digits, single
    underscores allowed between digits, and no more digits than CPython's
    limit on the conversion of text to integers. *)
Definition is_space (a : ascii) : bool :=
  let n := nat_of_ascii a in
  ((9 <=? n)%nat && (n <=? 13)%nat) || (n =? 32)%nat.

Definition digit_of (a : ascii) : option Z :=
  let n := Z.of_nat (nat_of_ascii a) in
  if (48 <=? n) && (n <=? 57) then Some (n - 48) else None.

Fixpoint lstrip (s : string) : string :=
  match s with
  | String a s' => if is_space a then lstrip s' else s
  | EmptyString => EmptyString
  end.

Fixpoint rstrip (s : string) : string :=
  match s with
  | String a s' =>
      match rstrip s' with
      | EmptyString => if is_space a then EmptyString else String a EmptyString
      | r => String a r
      end
  | EmptyString => EmptyString
  end.

Fixpoint digits (s : string) (acc : Z) (after_digit : bool) : option Z :=
  match s with
  | EmptyString => if after_digit then Some acc else None
  | String a s' =>
      match digit_of a with
      | Some d => digits s' (10 * acc + d) true
      | None =>
          if Ascii.eqb a "_" && after_digit then digits s' acc false else None
      end
  end.

(** [sys.int_info.default_max_str_digits]. *)
Definition int_max_str_digits : Z := 4300.

Fixpoint count_digits (s : string) : Z :=
  match s with
  | EmptyString => 0
  | String a s' =>
      match digit_of a with
      | Some _ => 1 + count_digits s'
      | None => count_digits s'
      end
  end.

Definition int_of_digits (s : string) : option Z :=
  if int_max_str_digits <? count_digits s then None else digits s 0 false.

Definition int_of_str (s : string) : option Z :=
  match rstrip (lstrip s) with
  | String "-" s' => Z.opp <$> int_of_digits s'
  | String "+" s' => int_of_digits s'
  | s' => int_of_digits s'
  end.

(** [int(v)]. *)
Definition int (v : pyval) : result Z :=
  match v with
  | PInt z => Ok z
  | PBool b => Ok (Z.b2z b)
  | PStr s => match int_of_str s with Some z => Ok z | None => Raise ValueError end
  | PNone | PList _ | PDict _ => Raise TypeError
  end.

(** [tuple(v)], as the sequence of its elements. *)
Definition tuple (v : pyval) : result (list pyval) := iter v.

(** [s.upper()]. *)
Definition upper_ascii (a : ascii) : ascii :=
  let n := nat_of_ascii a in
  if (97 <=? n)%nat && (n <=? 122)%nat then ascii_of_nat (n - 32) else a.

Fixpoint upper (s : string) : string :=
  match s with
  | EmptyString => EmptyString
  | String a s' => String (upper_ascii a) (upper s')
  end.

(** ** Dictionary keys

    The keys a Python dict accepts among [pyval]: [None], numbers and text.
    [True] and [1] (and [False] and [0]) are one key; lists and dicts are
    unhashable. *)
Inductive hkey : Type :=
| KNone
| KNum (z : Z)
| KStr (s : string).

#[global] Instance hkey_eq_dec : EqDecision hkey.
Proof. solve_decision. Defined.

#[global] Instance hkey_countable : Countable hkey :=
  inj_countable'
    (λ k, match k with
          | KNone => inl ()
          | KNum z => inr (inl z)
          | KStr s => inr (inr s)
          end)
    (λ x, match x with
          | inl _ => KNone
          | inr (inl z) => KNum z
          | inr (inr s) => KStr s
          end)
    (λ k, match k with KNone | KNum _ | KStr _ => eq_refl end).

(** [hash(v)], as far as a dict observes it. *)
Definition hash (v : pyval) : result hkey :=
  match v with
  | PNone => Ok KNone
  | PBool b => Ok (KNum (Z.b2z b))
  | PInt z => Ok (KNum z)
  | PStr s => Ok (KStr s)
  | PList _ | PDict _ => Raise TypeError
  end.

(** ** The documentation model *)

(** Modelled from the spec: the seven kind tokens of [robot.running.ArgInfo],
    a class that is not part of these sources; the spellings are the spec's
    (section 4.3), the two markers being its separator tokens. *)
Module ArgInfo.
Definition POSITIONAL_ONLY : string := "POSITIONAL_ONLY".
Definition POSITIONAL_ONLY_MARKER : string := "POSITIONAL_ONLY_SEPARATOR".
Definition POSITIONAL_OR_NAMED : string := "POSITIONAL_OR_NAMED".
Definition VAR_POSITIONAL : string := "VARIADIC_POSITIONAL".
Definition NAMED_ONLY_MARKER : string := "NAMED_ONLY_SEPARATOR".
Definition NAMED_ONLY : string := "NAMED_ONLY".
Definition VAR_NAMED : string := "VARIADIC_NAMED".
End ArgInfo.

(** Modelled from the spec: [robot.running.ArgumentSpec], the ParameterSpec
    of section 3, with the fields the builders touch.  A mapping that is
    unset and one that is empty are both the empty map: the builders do not
    tell them apart ([if not spec.types]). *)
Record ArgumentSpec : Type := mkArgumentSpec {
  positional_only : list pyval;
  positional_or_named : list pyval;
  var_positional : pyval;
  named_only : list pyval;
  var_named : pyval;
  defaults : gmap hkey pyval;
  types : gmap hkey (list pyval)
}.

(** [ArgumentSpec()]. *)
Definition ArgumentSpec_new : ArgumentSpec :=
  mkArgumentSpec [] [] PNone [] PNone ∅ ∅.

(** Modelled from the spec: the classes of [robot.libdocpkg.model] and
    [robot.libdocpkg.datatypes], which are not part of these sources, as
    records of the fields the builders pass to their constructors (section 3:
    CallableDoc, DataTypeDoc and LibraryDocument). *)
Module KeywordDoc.
Record t : Type := mk {
  name : pyval;
  args : ArgumentSpec;
  doc : pyval;
  shortdoc : pyval;
  tags : pyval;
  source : pyval;
  lineno : Z
}.
End KeywordDoc.

Module EnumMember.
Record t : Type := mk { name : pyval; value : pyval }.
End EnumMember.

Module EnumDoc.
Record t : Type := mk { name : pyval; doc : pyval; members : list EnumMember.t }.
End EnumDoc.

Module TypedDictItem.
Record t : Type := mk { key : pyval; type : pyval; required : pyval }.
End TypedDictItem.

Module TypedDictDoc.
Record t : Type := mk { name : pyval; doc : pyval; items : list TypedDictItem.t }.
End TypedDictDoc.

Module CustomDoc.
Record t : Type := mk { name : pyval; doc : pyval }.
End CustomDoc.

Inductive DataTypeDoc : Type :=
| Enum (d : EnumDoc.t)
| TypedDict (d : TypedDictDoc.t)
| Custom (d : CustomDoc.t).

(** Modelled from the spec: [robot.libdocpkg.model.LibraryDoc].
    [data_types] is the sequence handed to [set(...)]: which of its members
    the set holds to be equal is decided outside these sources. *)
Module LibraryDoc.
Record t : Type := mk {
  name : pyval;
  doc : pyval;
  version : pyval;
  type : pyval;
  scope : pyval;
  doc_format : pyval;
  source : pyval;
  lineno : Z;
  inits : list KeywordDoc.t;
  keywords : list KeywordDoc.t;
  data_types : list DataTypeDoc
}.
End LibraryDoc.

(** ** The [setters] table of [_create_arguments]

    Both builders fill the same table: a kind token selects what is done
    with the name of a record. *)
Definition setter : Type := pyval → ArgumentSpec → ArgumentSpec.

Definition append_positional_only : setter := λ value spec,
  mkArgumentSpec (positional_only spec ++ [value]) (positional_or_named spec)
    (var_positional spec) (named_only spec) (var_named spec)
    (defaults spec) (types spec).

Definition append_positional_or_named : setter := λ value spec,
  mkArgumentSpec (positional_only spec) (positional_or_named spec ++ [value])
    (var_positional spec) (named_only spec) (var_named spec)
    (defaults spec) (types spec).

Definition set_var_positional : setter := λ value spec,
  mkArgumentSpec (positional_only spec) (positional_or_named spec)
    value (named_only spec) (var_named spec)
    (defaults spec) (types spec).

Definition append_named_only : setter := λ value spec,
  mkArgumentSpec (positional_only spec) (positional_or_named spec)
    (var_positional spec) (named_only spec ++ [value]) (var_named spec)
    (defaults spec) (types spec).

Definition set_var_named : setter := λ value spec,
  mkArgumentSpec (positional_only spec) (positional_or_named spec)
    (var_positional spec) (named_only spec) value
    (defaults spec) (types spec).

(** [lambda value: None]. *)
Definition ignore : setter := λ value spec, spec.

Definition setters : list (string * setter) :=
  [ (ArgInfo.POSITIONAL_ONLY, append_positional_only);
    (ArgInfo.POSITIONAL_ONLY_MARKER, ignore);
    (ArgInfo.POSITIONAL_OR_NAMED, append_positional_or_named);
    (ArgInfo.VAR_POSITIONAL, set_var_positional);
    (ArgInfo.NAMED_ONLY_MARKER, ignore);
    (ArgInfo.NAMED_ONLY, append_named_only);
    (ArgInfo.VAR_NAMED, set_var_named) ].

(** [setters[kind]]. *)
Definition setters_getitem (kind : pyval) : result setter :=
  k ← hash kind;
  match k with
  | KStr s =>
      match assoc s setters with
      | Some f => Ok f
      | None => Raise (KeyError kind)
      end
  | _ => Raise (KeyError kind)
  end.

(** [spec.defaults[name] = value]. *)
Definition defaults_setitem (spec : ArgumentSpec) (name value : pyval)
  : result ArgumentSpec :=
  k ← hash name;
  Ok (mkArgumentSpec (positional_only spec) (positional_or_named spec)
        (var_positional spec) (named_only spec) (var_named spec)
        (<[k := value]> (defaults spec)) (types spec)).

(** [if not spec.types: spec.types = {}]. *)
Definition types_reset_if_empty (spec : ArgumentSpec) : ArgumentSpec :=
  if decide (types spec = ∅) then
    mkArgumentSpec (positional_only spec) (positional_or_named spec)
      (var_positional spec) (named_only spec) (var_named spec)
      (defaults spec) ∅
  else spec.

(** [spec.types[name] = value]. *)
Definition types_setitem (spec : ArgumentSpec) (name : pyval)
  (value : list pyval) : result ArgumentSpec :=
  k ← hash name;
  Ok (mkArgumentSpec (positional_only spec) (positional_or_named spec)
        (var_positional spec) (named_only spec) (var_named spec)
        (defaults spec) (<[k := value]> (types spec))).

(** A loop whose body may raise, threading the object it mutates. *)
Fixpoint for_each {S A} (body : S → A → result S) (s : S) (l : list A)
  : result S :=
  match l with
  | [] => Ok s
  | a :: l' => s' ← body s a; for_each body s' l'
  end.

(** Where a path leads in the file system: [os.path.isfile] holds of
    every state but [NotAFile]; opening an [Unreadable] file raises; the
    parser rejects a [Malformed] one. *)
Inductive file_state (T : Type) : Type :=
| NotAFile
| Unreadable
| Malformed
| Parsed (t : T).
Arguments NotAFile {T}.
Arguments Unreadable {T}.
Arguments Malformed {T}.
Arguments Parsed {T} t.

Definition isfile {T} (f : file_state T) : bool :=
  match f with NotAFile => false | _ => true end.

(** Opening and parsing the file: their exceptions escape as they are. *)
Definition load {T} (f : file_state T) : result T :=
  match f with
  | NotAFile | Unreadable => Raise OSError
  | Malformed => Raise ParseError
  | Parsed t => Ok t
  end.

(** ** [JsonDocBuilder] *)
Module JsonDocBuilder.

(** The body of the loop of [_create_arguments], on the specification built
    so far. *)
Definition _create_arguments_step (spec : ArgumentSpec) (arg : pyval)
  : result ArgumentSpec :=
  name ← getitem arg "name";
  kind ← getitem arg "kind";
  set ← setters_getitem kind;
  let spec := set name spec in
  default ← get arg "defaultValue" PNone;
  spec ← match default with
          | PNone => Ok spec
          | _ => defaults_setitem spec name default
          end;
  arg_types ← getitem arg "types";
  let spec := types_reset_if_empty spec in
  tys ← tuple arg_types;
  types_setitem spec name tys.

Definition _create_arguments (arguments : pyval) : result ArgumentSpec :=
  args ← iter arguments;
  for_each _create_arguments_step ArgumentSpec_new args.

Definition _create_keyword (kw : pyval) : result KeywordDoc.t :=
  name ← get kw "name" PNone;
  arguments ← getitem kw "args";
  args ← _create_arguments arguments;
  doc ← getitem kw "doc";
  shortdoc ← getitem kw "shortdoc";
  tags ← getitem kw "tags";
  source ← getitem kw "source";
  lineno ← get kw "lineno" (PInt (-1));
  lineno ← int lineno;
  Ok (KeywordDoc.mk name args doc shortdoc tags source lineno).

(** The [EnumMember(...)] of the comprehension of [_create_enum_doc]. *)
Definition _create_enum_member (member : pyval) : result EnumMember.t :=
  name ← getitem member "name";
  value ← getitem member "value";
  Ok (EnumMember.mk name value).

Definition _create_enum_doc (data : pyval) : result EnumDoc.t :=
  name ← getitem data "name";
  doc ← getitem data "doc";
  members ← getitem data "members";
  members ← iter members;
  members ← comprehension _create_enum_member members;
  Ok (EnumDoc.mk name doc members).

(** The [TypedDictItem(...)] of the comprehension of
    [_create_typed_dict_doc]. *)
Definition _create_typed_dict_item (item : pyval) : result TypedDictItem.t :=
  key ← getitem item "key";
  type ← getitem item "type";
  required ← get item "required" PNone;
  Ok (TypedDictItem.mk key type required).

Definition _create_typed_dict_doc (data : pyval) : result TypedDictDoc.t :=
  name ← getitem data "name";
  doc ← getitem data "doc";
  items ← getitem data "items";
  items ← iter items;
  items ← comprehension _create_typed_dict_item items;
  Ok (TypedDictDoc.mk name doc items).

Definition _create_custom_doc (data : pyval) : result CustomDoc.t :=
  name ← getitem data "name";
  doc ← getitem data "doc";
  Ok (CustomDoc.mk name doc).

Definition _create_data_types (data_types : pyval) : result (list DataTypeDoc) :=
  l ← get data_types "enums" (PList []);
  l ← iter l;
  enums ← comprehension _create_enum_doc l;
  l ← get data_types "typedDicts" (PList []);
  l ← iter l;
  typed_dicts ← comprehension _create_typed_dict_doc l;
  l ← get data_types "customs" (PList []);
  l ← iter l;
  customs ← comprehension _create_custom_doc l;
  Ok (map Enum enums ++ map TypedDict typed_dicts ++ map Custom customs)%list.

Definition build_from_dict (spec : pyval) : result LibraryDoc.t :=
  name ← getitem spec "name";
  doc ← getitem spec "doc";
  version ← getitem spec "version";
  type ← getitem spec "type";
  scope ← getitem spec "scope";
  doc_format ← getitem spec "docFormat";
  source ← getitem spec "source";
  lineno ← get spec "lineno" (PInt (-1));
  lineno ← int lineno;
  l ← getitem spec "inits";
  l ← iter l;
  inits ← comprehension _create_keyword l;
  l ← getitem spec "keywords";
  l ← iter l;
  keywords ← comprehension _create_keyword l;
  data_types ← getitem spec "dataTypes";
  data_types ← _create_data_types data_types;
  Ok (LibraryDoc.mk name doc version type scope doc_format source lineno
        inits keywords data_types).

Definition _parse_spec_json (fs : string → file_state pyval) (path : string)
  : result pyval :=
  if negb (isfile (fs path)) then
    Raise (DataError ("Spec file '" +:+ path +:+ "' does not exist."))
  else load (fs path).

Definition build (fs : string → file_state pyval) (path : string)
  : result LibraryDoc.t :=
  spec ← _parse_spec_json fs path;
  build_from_dict spec.

End JsonDocBuilder.

(** ** Element trees

    What [ET.parse(...).getroot()] returns: an element has a tag, its
    attributes, its text ([None] when it has none) and its children. *)
Inductive Element : Type :=
| mkElement (tag : string) (attrib : list (string * string))
    (text : option string) (children : list Element).

Definition tag (e : Element) : string :=
  match e with mkElement t _ _ _ => t end.
Definition attrib (e : Element) : list (string * string) :=
  match e with mkElement _ a _ _ => a end.
Definition text (e : Element) : option string :=
  match e with mkElement _ _ x _ => x end.
Definition children (e : Element) : list Element :=
  match e with mkElement _ _ _ c => c end.

(** A string or [None] as a value. *)
Definition str_or_None (o : option string) : pyval :=
  match o with Some s => PStr s | None => PNone end.

(** [elem.get(key)]. *)
Definition attr (e : Element) (key : string) : option string :=
  assoc key (attrib e).

(** [elem.text or '']. *)
Definition text_or_empty (e : Element) : string :=
  match text e with Some s => s | None => EmptyString end.

(** The steps of a path such as ['arguments/arg']. *)
Fixpoint split_path (path : string) : list string :=
  match path with
  | EmptyString => [EmptyString]
  | String a rest =>
      if Ascii.eqb a "/" then EmptyString :: split_path rest
      else match split_path rest with
           | s :: l => String a s :: l
           | [] => [String a EmptyString]
           end
  end.

Definition children_tagged (t : string) (e : Element) : list Element :=
  filter (λ c, tag c = t) (children e).

Fixpoint select (steps : list string) (es : list Element) : list Element :=
  match steps with
  | [] => es
  | t :: steps' => select steps' (flat_map (children_tagged t) es)
  end.

(** [elem.findall(path)] and [elem.find(path)]. *)
Definition findall (e : Element) (path : string) : list Element :=
  select (split_path path) [e].

Definition find (e : Element) (path : string) : option Element :=
  head (findall e path).

(** ** [XmlDocBuilder] *)
Module XmlDocBuilder.

Definition _parse_spec (fs : string → file_state Element) (path : string)
  : result Element :=
  if negb (isfile (fs path)) then
    Raise (DataError ("Spec file '" +:+ path +:+ "' does not exist."))
  else
    root ← load (fs path);
    if negb (String.eqb (tag root) "keywordspec") then
      Raise (DataError ("Invalid spec file '" +:+ path +:+ "'."))
    else
      let version := attr root "specversion" in
      if negb (bool_decide (version = Some "3") || bool_decide (version = Some "4")) then
        Raise (DataError ("Invalid spec file version '"
                          +:+ match version with Some v => v | None => "None" end
                          +:+ "'. " +:+ "Supported versions are 3 and 4."))
      else Ok root.

(** The body of the loop of [_create_arguments]: an [arg] without [name]
    is passed over. *)
Definition _create_arguments_step (spec : ArgumentSpec) (arg : Element)
  : result ArgumentSpec :=
  match find arg "name" with
  | None => Ok spec
  | Some name_elem =>
      let name := str_or_None (text name_elem) in
      set ← setters_getitem (str_or_None (attr arg "kind"));
      let spec := set name spec in
      spec ← match find arg "default" with
              | Some default_elem =>
                  defaults_setitem spec name (PStr (text_or_empty default_elem))
              | None => Ok spec
              end;
      let type_elems := findall arg "type" in
      let spec := types_reset_if_empty spec in
      types_setitem spec name (map (λ t, str_or_None (text t)) type_elems)
  end.

Definition _create_arguments (elem : Element) : result ArgumentSpec :=
  for_each _create_arguments_step ArgumentSpec_new (findall elem "arguments/arg").

(** [elem.find(path).text or '']. *)
Definition find_text (elem : Element) (path : string) : result pyval :=
  match find elem path with
  | Some e => Ok (PStr (text_or_empty e))
  | None => Raise AttributeError
  end.

Definition _create_keyword (elem : Element) (lib_source : pyval)
  : result KeywordDoc.t :=
  let name := PStr (match attr elem "name" with Some s => s | None => EmptyString end) in
  args ← _create_arguments elem;
  doc ← find_text elem "doc";
  shortdoc ← find_text elem "shortdoc";
  let tags := PList (map (λ t, str_or_None (text t)) (findall elem "tags/tag")) in
  let source := match attr elem "source" with
                | Some (String a s) => PStr (String a s)
                | _ => lib_source
                end in
  lineno ← int (match attr elem "lineno" with Some s => PStr s | None => PInt (-1) end);
  Ok (KeywordDoc.mk name args doc shortdoc tags source lineno).

Definition _create_keywords (spec : Element) (path : string) (lib_source : pyval)
  : result (list KeywordDoc.t) :=
  comprehension (λ elem, _create_keyword elem lib_source) (findall spec path).

Definition _create_enum_doc (elem : Element) : result EnumDoc.t :=
  let name := str_or_None (attr elem "name") in
  doc ← find_text elem "doc";
  let members :=
    map (λ member, EnumMember.mk (str_or_None (attr member "name"))
                                 (str_or_None (attr member "value")))
        (findall elem "members/member") in
  Ok (EnumDoc.mk name doc members).

(** The body of the loop of [_create_typed_dict_doc]. *)
Definition _create_typed_dict_item (item : Element) : TypedDictItem.t :=
  let required := attr item "required" in
  let required := match required with
                  | None => PNone
                  | Some s => PBool (String.eqb s "true")
                  end in
  TypedDictItem.mk (str_or_None (attr item "key")) (str_or_None (attr item "type"))
    required.

Definition _create_typed_dict_doc (elem : Element) : result TypedDictDoc.t :=
  let items := map _create_typed_dict_item (findall elem "items/item") in
  let name := str_or_None (attr elem "name") in
  doc ← find_text elem "doc";
  Ok (TypedDictDoc.mk name doc items).

Definition _create_custom_doc (elem : Element) : result CustomDoc.t :=
  let name := str_or_None (attr elem "name") in
  doc ← find_text elem "doc";
  Ok (CustomDoc.mk name doc).

Definition _create_data_types (spec : Element) : result (list DataTypeDoc) :=
  enums ← comprehension _create_enum_doc (findall spec "datatypes/enums/enum");
  typed_dicts ← comprehension _create_typed_dict_doc
                  (findall spec "datatypes/typeddicts/typeddict");
  custom ← comprehension _create_custom_doc (findall spec "datatypes/customs/custom");
  Ok (map Enum enums ++ map TypedDict typed_dicts ++ map Custom custom)%list.

Definition build (fs : string → file_state Element) (path : string)
  : result LibraryDoc.t :=
  spec ← _parse_spec fs path;
  let name := str_or_None (attr spec "name") in
  type ← match attr spec "type" with
          | Some s => Ok (PStr (upper s))
          | None => Raise AttributeError
          end;
  version ← find_text spec "version";
  doc ← find_text spec "doc";
  let scope := str_or_None (attr spec "scope") in
  let doc_format := match attr spec "format" with
                    | Some (String a s) => PStr (String a s)
                    | _ => PStr "ROBOT"
                    end in
  let source := str_or_None (attr spec "source") in
  lineno ← int (str_or_None (attr spec "lineno"));
  let lineno := if lineno =? 0 then -1 else lineno in
  inits ← _create_keywords spec "inits/init" source;
  keywords ← _create_keywords spec "keywords/kw" source;
  data_types ← _create_data_types spec;
  Ok (LibraryDoc.mk name doc version type scope doc_format source lineno
        inits keywords data_types).

End XmlDocBuilder.

(** ** Parameter records as the builders read them

    What one pass of the loop of [_create_arguments] reads from a record:
    its name, its kind, its default when it supplies one, its types. *)
Record param : Type := mkParam {
  p_name : pyval;
  p_kind : pyval;
  p_default : option pyval;
  p_types : list pyval
}.

(** What the loop body does with what it has read. *)
Definition place (spec : ArgumentSpec) (p : param) : result ArgumentSpec :=
  set ← setters_getitem (p_kind p);
  let spec := set (p_name p) spec in
  spec ← match p_default p with
          | Some d => defaults_setitem spec (p_name p) d
          | None => Ok spec
          end;
  types_setitem (types_reset_if_empty spec) (p_name p) (p_types p).

(** Variant A: a record is a dict with a name, a kind and iterable types;
    a [defaultValue] that is absent or [None] is no default. *)
Definition json_record (arg : pyval) : option param :=
  match arg with
  | PDict d =>
      n ← assoc "name" d;
      k ← assoc "kind" d;
      t ← assoc "types" d;
      tys ← match iter t with Ok l => Some l | Raise _ => None end;
      Some (mkParam n k
              match assoc "defaultValue" d with
              | None | Some PNone => None
              | Some v => Some v
              end
              tys)
  | _ => None
  end.

(** Variant B: a record is an [arg] element with a [name] child. *)
Definition xml_record (arg : Element) : option param :=
  name_elem ← find arg "name";
  Some (mkParam (str_or_None (text name_elem))
          (str_or_None (attr arg "kind"))
          ((λ e, PStr (text_or_empty e)) <$> find arg "default")
          (map (λ t, str_or_None (text t)) (findall arg "type"))).

Definition kind_is (token : string) (kind : pyval) : bool :=
  match kind with PStr s => String.eqb s token | _ => false end.

(** The two separator markers. *)
Definition is_marker (kind : pyval) : bool :=
  kind_is ArgInfo.POSITIONAL_ONLY_MARKER kind || kind_is ArgInfo.NAMED_ONLY_MARKER kind.

(** The seven kind tokens. *)
Definition kind_tokens : list string :=
  [ ArgInfo.POSITIONAL_ONLY; ArgInfo.POSITIONAL_ONLY_MARKER;
    ArgInfo.POSITIONAL_OR_NAMED; ArgInfo.VAR_POSITIONAL;
    ArgInfo.NAMED_ONLY_MARKER; ArgInfo.NAMED_ONLY; ArgInfo.VAR_NAMED ].

(** One of the seven tokens: a test on the kind alone. *)
Definition recognized (kind : pyval) : bool :=
  existsb (λ token, kind_is token kind) kind_tokens.

(** The names of the records of one kind, in the order of the records. *)
Definition names_of_kind (token : string) (ps : list param) : list pyval :=
  map p_name (filter (λ p, kind_is token (p_kind p) = true) ps).

(** The key a name is filed under, when it is hashable. *)
Definition key_of (name : pyval) : option hkey :=
  match hash name with Ok k => Some k | Raise _ => None end.

(** The records filed under a key. *)
Definition named (k : hkey) (ps : list param) : list param :=
  filter (λ p, key_of (p_name p) = Some k) ps.

(** The five groups of a parameter specification. *)
Definition groups (spec : ArgumentSpec)
  : list pyval * list pyval * pyval * list pyval * pyval :=
  (positional_only spec, positional_or_named spec, var_positional spec,
   named_only spec, var_named spec).

(** Python's own lookup and type errors, as opposed to [DataError]. *)
Definition is_KeyError_or_TypeError (e : exn) : bool :=
  match e with KeyError _ | TypeError => true | _ => false end.

(** Variant A: the kind of a record is one of the seven tokens. *)
Definition json_kind_recognized (arg : pyval) : bool :=
  match getitem arg "kind" with Ok k => recognized k | Raise _ => false end.

(** A record whose kind is a separator marker. *)
Definition json_is_separator (arg : pyval) : bool :=
  match getitem arg "kind" with Ok k => is_marker k | Raise _ => false end.

Definition xml_is_separator (arg : Element) : bool :=
  is_marker (str_or_None (attr arg "kind")).

(** What the builders leave in the five groups for the records [ps]: each
    ordered group holds the names of its kind in the order of the records,
    each single slot the name written last. *)
Definition grouped (spec : ArgumentSpec) (ps : list param) : Prop :=
  positional_only spec = names_of_kind ArgInfo.POSITIONAL_ONLY ps
  ∧ positional_or_named spec = names_of_kind ArgInfo.POSITIONAL_OR_NAMED ps
  ∧ var_positional spec = default PNone (last (names_of_kind ArgInfo.VAR_POSITIONAL ps))
  ∧ named_only spec = names_of_kind ArgInfo.NAMED_ONLY ps
  ∧ var_named spec = default PNone (last (names_of_kind ArgInfo.VAR_NAMED ps)).

(** What the builders leave in the two mappings for the records [ps]. *)
Definition mapped (spec : ArgumentSpec) (ps : list param) : Prop :=
  (∀ k, is_Some (defaults spec !! k) ↔
        ∃ p, p ∈ ps ∧ key_of (p_name p) = Some k ∧ is_Some (p_default p))
  ∧ (∀ p, p ∈ ps → ∃ k, key_of (p_name p) = Some k ∧ is_Some (types spec !! k))
  ∧ (∀ k, types spec !! k = p_types <$> last (named k ps)).

(** The tri-state [required] of a record-type item, per variant. *)
Definition json_required (item : pyval) (it : TypedDictItem.t) : Prop :=
  ∃ d, item = PDict d
  ∧ (assoc "required" d = None → TypedDictItem.required it = PNone)
  ∧ (assoc "required" d = Some (PBool true) → TypedDictItem.required it = PBool true)
  ∧ (assoc "required" d = Some (PBool false) → TypedDictItem.required it = PBool false).

Definition xml_required (item : Element) (it : TypedDictItem.t) : Prop :=
  (attr item "required" = None → TypedDictItem.required it = PNone)
  ∧ (attr item "required" = Some "true" → TypedDictItem.required it = PBool true)
  ∧ (attr item "required" = Some "false" → TypedDictItem.required it = PBool false).


(** A path that leads to a file that can be opened and read. *)
Definition is_readable_file {T} (f : file_state T) : bool :=
  match f with Malformed | Parsed _ => true | NotAFile | Unreadable => false end.

(** ** Sample records and documents *)
Definition separator_record_bare : pyval :=
  PDict [("name", PStr "_"); ("kind", PStr "POSITIONAL_ONLY_SEPARATOR")].

Definition separator_record : pyval :=
  PDict [("name", PStr "_"); ("kind", PStr "POSITIONAL_ONLY_SEPARATOR");
         ("types", PList [])].

Definition y_record : pyval :=
  PDict [("name", PStr "y"); ("kind", PStr "POSITIONAL_OR_NAMED");
         ("types", PList [PStr "int"]); ("defaultValue", PInt 5)].

Definition bogus_record : pyval :=
  PDict [("name", PStr "x"); ("kind", PStr "BOGUS"); ("types", PList [])].

Definition run_keyword (records : list pyval) : pyval :=
  PDict [("name", PStr "Run"); ("args", PList records); ("doc", PStr "Runs.");
         ("shortdoc", PStr "Runs."); ("tags", PList []);
         ("source", PStr "lib.py"); ("lineno", PInt 7)].

Definition library_document (keywords : list pyval) : pyval :=
  PDict [("name", PStr "Lib"); ("doc", PStr "A library."); ("version", PStr "1.0");
         ("type", PStr "LIBRARY"); ("scope", PStr "GLOBAL");
         ("docFormat", PStr "ROBOT"); ("source", PStr "lib.py");
         ("lineno", PInt 1); ("inits", PList []); ("keywords", PList keywords);
         ("dataTypes", PDict [])].

Definition leaf (tag : string) (text : string) : Element :=
  mkElement tag [] (Some text) [].

Definition arg_element (kind : string) (parts : list Element) : Element :=
  mkElement "arg" [("kind", kind)] None parts.

Definition kw_element (attrs : list (string * string)) (args : list Element) : Element :=
  mkElement "kw" attrs None
    [mkElement "arguments" [] None args; leaf "doc" "Runs."; leaf "shortdoc" "Runs."].

Definition keywordspec (attrs : list (string * string)) (kws : list Element) : Element :=
  mkElement "keywordspec" attrs None
    [leaf "version" "1.0"; leaf "doc" "A library."; mkElement "keywords" [] None kws].

Definition separator_record_with_default : pyval :=
  PDict [("name", PStr "_"); ("kind", PStr "NAMED_ONLY_SEPARATOR");
         ("types", PList []); ("defaultValue", PInt 0)].

Definition rest_record : pyval :=
  PDict [("name", PStr "rest"); ("kind", PStr "VARIADIC_POSITIONAL");
         ("types", PList []); ("defaultValue", PNone)].

Definition separator_arg : Element :=
  arg_element "POSITIONAL_ONLY_SEPARATOR" [leaf "name" "_"].

Definition y_arg : Element :=
  arg_element "POSITIONAL_OR_NAMED" [leaf "name" "y"; leaf "default" "5"; leaf "type" "int"].

Definition nameless_bogus_arg : Element := arg_element "BOGUS" [].

Definition bogus_arg : Element := arg_element "BOGUS" [leaf "name" "x"].

Definition typed_dict_data : pyval :=
  PDict [("name", PStr "Point"); ("doc", PStr "A point.");
         ("items", PList [PDict [("key", PStr "x"); ("type", PStr "int")];
                          PDict [("key", PStr "y"); ("type", PStr "int");
                                 ("required", PBool true)];
                          PDict [("key", PStr "z"); ("type", PStr "int");
                                 ("required", PBool false)]])].

Definition typed_dict_element : Element :=
  mkElement "typeddict" [("name", "Point")] None
    [leaf "doc" "A point.";
     mkElement "items" [] None
       [mkElement "item" [("key", "x"); ("type", "int")] None [];
        mkElement "item" [("key", "y"); ("type", "int"); ("required", "true")] None [];
        mkElement "item" [("key", "z"); ("type", "int"); ("required", "false")] None []]].

(** A library specification whose root has no [lineno]. *)
Definition spec_without_lineno : Element :=
  keywordspec [("specversion", "3"); ("name", "Lib"); ("type", "library")] [].

(** A library specification whose root and first keyword have [lineno="0"]
    and whose second keyword has none. *)
Definition spec_with_zero_lineno : Element :=
  keywordspec [("specversion", "4"); ("name", "Lib"); ("type", "library");
               ("lineno", "0")]
    [kw_element [("name", "Run"); ("lineno", "0")] [separator_arg; y_arg];
     kw_element [("name", "Stop")] []].

(** ** Input the builders accept, as tests on the input *)

(** Variant A: a record that is read, of a recognized kind, with a hashable
    name. *)
Definition json_arg_ok (arg : pyval) : bool :=
  match json_record arg with
  | Some p =>
      recognized (p_kind p)
      && match key_of (p_name p) with Some _ => true | None => false end
  | None => false
  end.

(** Variant B: an [arg] without [name], or one of a recognized kind. *)
Definition xml_arg_ok (arg : Element) : bool :=
  match xml_record arg with
  | Some p => recognized (p_kind p)
  | None => true
  end.




(** The enum, typed-dict and custom elements of a specification, in the
    order [_create_data_types] visits them. *)
Definition data_type_elements (spec : Element) : list Element :=
  (findall spec "datatypes/enums/enum"
   ++ findall spec "datatypes/typeddicts/typeddict"
   ++ findall spec "datatypes/customs/custom")%list.


(** The name of a data type documentation. *)
Definition data_type_name (d : DataTypeDoc) : pyval :=
  match d with
  | Enum e => EnumDoc.name e
  | TypedDict t => TypedDictDoc.name t
  | Custom c => CustomDoc.name c
  end.

(** The source of a keyword or init built from an element, given the source
    of the library. *)
Definition callable_source (lib_source : pyval) (elem : Element)
  (kw : KeywordDoc.t) : Prop :=
  (attr elem "source" = None → KeywordDoc.source kw = lib_source)
  ∧ (attr elem "source" = Some EmptyString → KeywordDoc.source kw = lib_source)
  ∧ (∀ s, attr elem "source" = Some s → s ≠ EmptyString →
          KeywordDoc.source kw = PStr s).

(** The top-level fields [build_from_dict] reads with [spec[...]], in the
    order it reads them. *)
Definition json_required_fields : list string :=
  ["name"; "doc"; "version"; "type"; "scope"; "docFormat"; "source"].

(** No domain error. *)
Definition no_DataError {A} (r : result A) : Prop :=
  ∀ msg, r ≠ Raise (DataError msg).

Definition y_record_text : pyval :=
  PDict [("name", PStr "y"); ("kind", PStr "POSITIONAL_OR_NAMED");
         ("types", PList [PStr "int"]); ("defaultValue", PStr "5")].

Definition record_of (name kind : string) : pyval :=
  PDict [("name", PStr name); ("kind", PStr kind); ("types", PList [])].

(** One record of each of the seven kinds. *)
Definition seven_records : list pyval :=
  [ record_of "a" "POSITIONAL_ONLY"; record_of "/" "POSITIONAL_ONLY_SEPARATOR";
    record_of "b" "POSITIONAL_OR_NAMED"; record_of "args" "VARIADIC_POSITIONAL";
    record_of "*" "NAMED_ONLY_SEPARATOR"; record_of "c" "NAMED_ONLY";
    record_of "kwargs" "VARIADIC_NAMED" ].

Definition seven_args : Element :=
  kw_element []
    [ arg_element "POSITIONAL_ONLY" [leaf "name" "a"];
      arg_element "POSITIONAL_ONLY_SEPARATOR" [leaf "name" "/"];
      arg_element "POSITIONAL_OR_NAMED" [leaf "name" "b"];
      arg_element "VARIADIC_POSITIONAL" [leaf "name" "args"];
      arg_element "NAMED_ONLY_SEPARATOR" [leaf "name" "*"];
      arg_element "NAMED_ONLY" [leaf "name" "c"];
      arg_element "VARIADIC_NAMED" [leaf "name" "kwargs"] ].

Definition y_again_record : pyval :=
  PDict [("name", PStr "y"); ("kind", PStr "NAMED_ONLY"); ("types", PList [])].

(** The line number variant A gives an entry (the library or a keyword):
    [-1] without [lineno], a [lineno] that is an integer as it is. *)
Definition json_lineno (entry : pyval) (n : Z) : Prop :=
  ∃ d, entry = PDict d
  ∧ (assoc "lineno" d = None → n = -1)
  ∧ (∀ z, assoc "lineno" d = Some (PInt z) → n = z).

(** The elements of a section of the [dataTypes] of variant A, none when
    the section is absent. *)
Definition json_section (d : list (string * pyval)) (key : string) : list pyval :=
  match assoc key d with
  | Some v => match iter v with Ok l => l | Raise _ => [] end
  | None => []
  end.

Definition name_attr (e : Element) : pyval := str_or_None (attr e "name").

Definition json_library_with_lineno (lineno : list (string * pyval)) : pyval :=
  PDict ([("name", PStr "Lib"); ("doc", PStr "A library."); ("version", PStr "1.0");
          ("type", PStr "LIBRARY"); ("scope", PStr "GLOBAL");
          ("docFormat", PStr "ROBOT"); ("source", PStr "lib.py");
          ("inits", PList []);
          ("keywords", PList [run_keyword [y_record]]);
          ("dataTypes", PDict [])] ++ lineno)%list.

(** A library specification whose keywords give a source of their own, none,
    and an empty one. *)
Definition spec_with_sources : Element :=
  keywordspec [("specversion", "4"); ("name", "Lib"); ("type", "library");
               ("source", "lib.py"); ("lineno", "3")]
    [kw_element [("name", "Run"); ("source", "other.py")] [];
     kw_element [("name", "Stop")] [];
     kw_element [("source", EmptyString)] []].

Definition spec_with_data_types : Element :=
  mkElement "keywordspec" [] None
    [mkElement "datatypes" [] None
       [mkElement "customs" [] None
          [mkElement "custom" [("name", "Date")] None [leaf "doc" "A date."]];
        mkElement "enums" [] None
          [mkElement "enum" [("name", "Color")] None
             [leaf "doc" "A color.";
              mkElement "members" [] None
                [mkElement "member" [("name", "RED"); ("value", "1")] None [];
                 mkElement "member" [("name", "BLUE"); ("value", "2")] None []]]];
        mkElement "typeddicts" [] None [typed_dict_element]]].

Definition json_data_types : list (string * pyval) :=
  [("customs", PList [PDict [("name", PStr "Date"); ("doc", PStr "A date.")]]);
   ("typedDicts", PList [typed_dict_data])].

(** * Properties *)

(** ** Results and loops *)

Lemma bind_Ok {A B} (m : result A) (f : A → result B) (b : B) :
  m ≫= f = Ok b ↔ ∃ a, m = Ok a ∧ f a = Ok b.
Proof.
  destruct m as [a|e]; simpl; split.
  - eauto.
  - by intros (? & [= ->] & ?).
  - done.
  - by intros (? & ? & ?).
Qed.

Lemma setters_getitem_Ok (kind : pyval) (f : setter) :
  setters_getitem kind = Ok f →
  ∃ s, kind = PStr s ∧ assoc s setters = Some f.
Proof.
  unfold setters_getitem.
  destruct kind as [| | |s| |]; cbn -[setters]; try done.
  destruct (assoc s setters) eqn:E; [|done].
  intros [= ->]. eauto.
Qed.

(** The table has an entry for each of the seven tokens, and for nothing
    else. *)
Lemma recognized_lookup (kind : pyval) :
  is_Ok (setters_getitem kind) = recognized kind.
Proof.
  unfold setters_getitem, recognized, kind_tokens, setters.
  destruct kind as [| | |s| |]; try reflexivity.
  cbn [hash mbind result_mbind result_bind assoc existsb kind_is].
  repeat (destruct (String.eqb s _); [reflexivity|]). reflexivity.
Qed.

Lemma setter_effect (kind : pyval) (f : setter) (name : pyval) (spec : ArgumentSpec) :
  setters_getitem kind = Ok f →
  groups (f name spec) =
    (positional_only spec ++ (if kind_is ArgInfo.POSITIONAL_ONLY kind then [name] else []),
     positional_or_named spec ++ (if kind_is ArgInfo.POSITIONAL_OR_NAMED kind then [name] else []),
     (if kind_is ArgInfo.VAR_POSITIONAL kind then name else var_positional spec),
     named_only spec ++ (if kind_is ArgInfo.NAMED_ONLY kind then [name] else []),
     (if kind_is ArgInfo.VAR_NAMED kind then name else var_named spec))%list
  ∧ defaults (f name spec) = defaults spec
  ∧ types (f name spec) = types spec.
Proof.
  intros (s & -> & Hs)%setters_getitem_Ok.
  unfold setters, groups in *. simpl in Hs.
  repeat match type of Hs with
  | context [String.eqb s ?t] => destruct (String.eqb_spec s t) as [Heq|?]; [subst s|]
  end; simplify_eq; simpl; rewrite ?app_nil_r; done.
Qed.

Lemma types_reset_if_empty_id (spec : ArgumentSpec) : types_reset_if_empty spec = spec.
Proof.
  unfold types_reset_if_empty. destruct spec as [a b c d e f t]; simpl.
  case_decide; by subst.
Qed.

Lemma hash_key_of (name : pyval) (k : hkey) : hash name = Ok k ↔ key_of name = Some k.
Proof. unfold key_of. destruct (hash name); split; congruence. Qed.

Lemma place_effect (spec : ArgumentSpec) (p : param) (spec' : ArgumentSpec) :
  place spec p = Ok spec' →
  ∃ k, key_of (p_name p) = Some k
  ∧ recognized (p_kind p) = true
  ∧ groups spec' =
      (positional_only spec ++ (if kind_is ArgInfo.POSITIONAL_ONLY (p_kind p) then [p_name p] else []),
       positional_or_named spec ++ (if kind_is ArgInfo.POSITIONAL_OR_NAMED (p_kind p) then [p_name p] else []),
       (if kind_is ArgInfo.VAR_POSITIONAL (p_kind p) then p_name p else var_positional spec),
       named_only spec ++ (if kind_is ArgInfo.NAMED_ONLY (p_kind p) then [p_name p] else []),
       (if kind_is ArgInfo.VAR_NAMED (p_kind p) then p_name p else var_named spec))%list
  ∧ defaults spec' = match p_default p with
                     | Some d => <[k := d]> (defaults spec)
                     | None => defaults spec
                     end
  ∧ types spec' = <[k := p_types p]> (types spec).
Proof.
  unfold place. intros (f & Hf & H)%bind_Ok.
  destruct (setter_effect _ _ (p_name p) spec Hf) as (Hg & Hd & Ht).
  apply bind_Ok in H as (s1 & H1 & H2).
  rewrite types_reset_if_empty_id in H2.
  unfold types_setitem in H2. apply bind_Ok in H2 as (k & Hk & [= <-]).
  exists k. split; [by apply hash_key_of|].
  split; [rewrite <- recognized_lookup; by rewrite Hf|].
  destruct (p_default p) as [d|].
  - unfold defaults_setitem in H1. rewrite Hk in H1. simpl in H1.
    injection H1 as <-. unfold groups in *. simpl. by rewrite Hd, Ht.
  - injection H1 as <-. unfold groups in *. simpl. by rewrite Hd, Ht.
Qed.

Lemma place_total (spec : ArgumentSpec) (p : param) :
  recognized (p_kind p) = true → is_Some (key_of (p_name p)) →
  is_Ok (place spec p) = true.
Proof.
  rewrite <- recognized_lookup. unfold place. intros Hr [k Hk%hash_key_of].
  destruct (setters_getitem (p_kind p)) as [f|]; [|done].
  cbn [mbind result_mbind result_bind].
  destruct (p_default p) as [d|]; [unfold defaults_setitem; rewrite Hk|];
    cbn [mbind result_mbind result_bind];
    rewrite types_reset_if_empty_id; unfold types_setitem; cbn [types];
    by rewrite Hk.
Qed.

Lemma for_each_app {S A} (body : S → A → result S) (s : S) (l1 l2 : list A) :
  for_each body s (l1 ++ l2) = for_each body s l1 ≫= λ s', for_each body s' l2.
Proof.
  revert s. induction l1 as [|a l1 IH]; intros s; simpl; [done|].
  destruct (body s a); simpl; [apply IH|done].
Qed.

Lemma for_each_snoc_Ok {S A} (body : S → A → result S) (s : S) (l : list A) (a : A) (s' : S) :
  for_each body s (l ++ [a]) = Ok s' ↔
  ∃ s1, for_each body s l = Ok s1 ∧ body s1 a = Ok s'.
Proof.
  rewrite for_each_app, bind_Ok. simpl.
  split; intros (s1 & H1 & H2); exists s1; split; try done.
  - by destruct (body s1 a).
  - by rewrite H2.
Qed.

Lemma names_of_kind_snoc (token : string) (ps : list param) (p : param) :
  names_of_kind token (ps ++ [p]) =
  (names_of_kind token ps ++ (if kind_is token (p_kind p) then [p_name p] else []))%list.
Proof.
  unfold names_of_kind. rewrite filter_app, map_app. f_equal.
  rewrite filter_cons, filter_nil.
  destruct (kind_is token (p_kind p)); by case_decide.
Qed.

Lemma named_snoc (k : hkey) (ps : list param) (p : param) :
  named k (ps ++ [p]) =
  (named k ps ++ (if decide (key_of (p_name p) = Some k) then [p] else []))%list.
Proof. unfold named. by rewrite filter_app, filter_cons, filter_nil. Qed.

Lemma last_snoc_if {A} (l : list A) (b : bool) (x : A) :
  last (l ++ (if b then [x] else [])) = if b then Some x else last l.
Proof. destruct b; [apply last_snoc | by rewrite app_nil_r]. Qed.

Lemma place_all (spec : ArgumentSpec) (ps : list param) (spec' : ArgumentSpec) :
  for_each place spec ps = Ok spec' →
  groups spec' =
    (positional_only spec ++ names_of_kind ArgInfo.POSITIONAL_ONLY ps,
     positional_or_named spec ++ names_of_kind ArgInfo.POSITIONAL_OR_NAMED ps,
     default (var_positional spec) (last (names_of_kind ArgInfo.VAR_POSITIONAL ps)),
     named_only spec ++ names_of_kind ArgInfo.NAMED_ONLY ps,
     default (var_named spec) (last (names_of_kind ArgInfo.VAR_NAMED ps)))%list
  ∧ (∀ k, defaults spec' !! k =
          match last (omap p_default (named k ps)) with
          | Some d => Some d
          | None => defaults spec !! k
          end)
  ∧ (∀ k, types spec' !! k =
          match last (named k ps) with
          | Some p => Some (p_types p)
          | None => types spec !! k
          end)
  ∧ Forall (λ p, recognized (p_kind p) = true ∧ is_Some (key_of (p_name p))) ps.
Proof.
  revert spec'. induction ps as [|p ps IH] using rev_ind; intros spec'.
  - intros [= <-]. unfold groups, names_of_kind. simpl. by rewrite !app_nil_r.
  - intros (s1 & H1 & H2)%for_each_snoc_Ok.
    destruct (IH _ H1) as (Hg & Hd & Ht & Hall).
    destruct (place_effect _ _ _ H2) as (k & Hk & Hr & Hg' & Hd' & Ht').
    unfold groups in Hg, Hg'. injection Hg as E1 E2 E3 E4 E5.
    rewrite E1, E2, E3, E4, E5 in Hg'. clear E1 E2 E3 E4 E5.
    split; [|split; [|split]].
    + unfold groups. rewrite Hg'. rewrite !names_of_kind_snoc, !last_snoc_if, !app_assoc.
      by destruct (kind_is ArgInfo.VAR_POSITIONAL (p_kind p)),
                  (kind_is ArgInfo.VAR_NAMED (p_kind p)).
    + intros k'. rewrite Hd', named_snoc, omap_app. case_decide as Hkk.
      * assert (k = k') as <- by congruence. simpl.
        destruct (p_default p) as [d|]; simpl.
        -- by rewrite last_snoc, lookup_insert_eq.
        -- by rewrite app_nil_r, Hd.
      * simpl. rewrite app_nil_r.
        destruct (p_default p) as [d|]; [|by rewrite Hd].
        rewrite lookup_insert_ne by congruence. by rewrite Hd.
    + intros k'. rewrite Ht', named_snoc. case_decide as Hkk.
      * assert (k = k') as <- by congruence.
        by rewrite last_snoc, lookup_insert_eq.
      * rewrite app_nil_r, lookup_insert_ne by congruence. by rewrite Ht.
    + apply Forall_app. split; [done|]. apply Forall_singleton. eauto.
Qed.

(** ** The two loops read as records *)

Lemma getitem_Ok (v : pyval) (k : string) (x : pyval) :
  getitem v k = Ok x ↔ ∃ d, v = PDict d ∧ assoc k d = Some x.
Proof.
  destruct v as [| | | | |d]; simpl; try (split; [done|by intros (? & ? & ?)]).
  split.
  - destruct (assoc k d) as [y|] eqn:E; [|done]. intros [= ->]. eauto.
  - by intros (? & [= <-] & ->).
Qed.

Lemma json_step_place (spec : ArgumentSpec) (arg : pyval) (p : param) :
  json_record arg = Some p →
  JsonDocBuilder._create_arguments_step spec arg = place spec p.
Proof.
  destruct arg as [| | | | |d]; try done.
  unfold json_record, JsonDocBuilder._create_arguments_step, place, tuple, getitem, get.
  destruct (assoc "name" d) as [n|]; [|done].
  destruct (assoc "kind" d) as [k|]; [|done].
  destruct (assoc "types" d) as [t|]; [|done].
  cbn [mbind option_bind result_mbind result_bind].
  destruct (iter t) as [tys|].
  2: done.
  cbn [mbind option_bind result_mbind result_bind].
  intros [= <-]. cbn [p_name p_kind p_default p_types].
  destruct (setters_getitem k) as [f|]; [|done].
  cbn [mbind result_mbind result_bind].
  by destruct (assoc "defaultValue" d) as [[]|].
Qed.

Lemma json_step_Ok (spec : ArgumentSpec) (arg : pyval) (spec' : ArgumentSpec) :
  JsonDocBuilder._create_arguments_step spec arg = Ok spec' →
  ∃ p, json_record arg = Some p ∧ place spec p = Ok spec'.
Proof.
  intros H. assert (is_Some (json_record arg)) as [p Hp].
  { unfold JsonDocBuilder._create_arguments_step in H.
    apply bind_Ok in H as (n & (d & -> & Hn)%getitem_Ok & H).
    apply bind_Ok in H as (k & (? & [= <-] & Hk)%getitem_Ok & H).
    apply bind_Ok in H as (f & _ & H).
    apply bind_Ok in H as (dv & _ & H).
    apply bind_Ok in H as (s1 & _ & H).
    apply bind_Ok in H as (t & (? & [= <-] & Ht)%getitem_Ok & H).
    apply bind_Ok in H as (tys & Htys & _).
    unfold json_record, tuple in *. rewrite Hn, Hk, Ht. simpl. rewrite Htys. simpl. eauto. }
  exists p. split; [done|]. by rewrite <- (json_step_place _ _ _ Hp).
Qed.

Lemma json_loop_Ok (spec : ArgumentSpec) (args : list pyval) (spec' : ArgumentSpec) :
  for_each JsonDocBuilder._create_arguments_step spec args = Ok spec' →
  Forall (λ arg, is_Some (json_record arg)) args
  ∧ for_each place spec (omap json_record args) = Ok spec'.
Proof.
  revert spec. induction args as [|arg args IH]; intros spec; simpl; [done|].
  intros (s1 & (p & Hp & H1)%json_step_Ok & H2)%bind_Ok.
  destruct (IH _ H2) as [Hall Hloop]. rewrite Hp. simpl. rewrite H1. simpl.
  split; [constructor; eauto|done].
Qed.

Lemma xml_step_place (spec : ArgumentSpec) (arg : Element) :
  XmlDocBuilder._create_arguments_step spec arg =
  match xml_record arg with Some p => place spec p | None => Ok spec end.
Proof.
  unfold XmlDocBuilder._create_arguments_step, xml_record, place.
  destruct (find arg "name") as [name_elem|]; [|done].
  cbn [mbind option_bind p_name p_kind p_default p_types].
  destruct (setters_getitem _); [|done].
  cbn [mbind result_mbind result_bind].
  by destruct (find arg "default").
Qed.

Lemma xml_loop_place (spec : ArgumentSpec) (args : list Element) :
  for_each XmlDocBuilder._create_arguments_step spec args =
  for_each place spec (omap xml_record args).
Proof.
  revert spec. induction args as [|arg args IH]; intros spec; simpl; [done|].
  rewrite xml_step_place. destruct (xml_record arg) as [p|]; simpl.
  - destruct (place spec p); simpl; [apply IH|done].
  - apply IH.
Qed.

(** ** What the loops raise *)

Lemma bind_Raise {A B} (m : result A) (f : A → result B) (e : exn) :
  m ≫= f = Raise e ↔ m = Raise e ∨ ∃ a, m = Ok a ∧ f a = Raise e.
Proof.
  destruct m as [a|e']; simpl; split.
  - eauto.
  - by intros [?|(? & [= ->] & ?)].
  - intros [= ->]. eauto.
  - by intros [[= ->]|(? & ? & ?)].
Qed.

Lemma hash_Raise (v : pyval) (e : exn) : hash v = Raise e → e = TypeError.
Proof. destruct v; simpl; congruence. Qed.

Lemma iter_Raise (v : pyval) (e : exn) : iter v = Raise e → e = TypeError.
Proof. destruct v; simpl; congruence. Qed.

Lemma getitem_Raise (v : pyval) (k : string) (e : exn) :
  getitem v k = Raise e → is_KeyError_or_TypeError e = true.
Proof.
  destruct v as [| | | | |d]; simpl; try by intros [= <-].
  destruct (assoc k d); [done|]. by intros [= <-].
Qed.

Lemma setters_getitem_Raise (kind : pyval) (e : exn) :
  setters_getitem kind = Raise e →
  e = KeyError kind ∨ (key_of kind = None ∧ e = TypeError).
Proof.
  unfold setters_getitem, key_of.
  destruct kind as [| | |s| |]; cbn -[setters]; try (intros [= <-]; by eauto).
  destruct (assoc s setters); [done|]. intros [= <-]. by left.
Qed.

Lemma defaults_setitem_Raise (spec : ArgumentSpec) (name value : pyval) (e : exn) :
  defaults_setitem spec name value = Raise e → key_of name = None ∧ e = TypeError.
Proof.
  unfold defaults_setitem, key_of. destruct (hash name) eqn:E; [done|].
  intros [= <-]. by apply hash_Raise in E as ->.
Qed.

Lemma types_setitem_Raise (spec : ArgumentSpec) (name : pyval) (value : list pyval) (e : exn) :
  types_setitem spec name value = Raise e → key_of name = None ∧ e = TypeError.
Proof.
  unfold types_setitem, key_of. destruct (hash name) eqn:E; [done|].
  intros [= <-]. by apply hash_Raise in E as ->.
Qed.

Lemma place_Raise (spec : ArgumentSpec) (p : param) (e : exn) :
  place spec p = Raise e →
  (recognized (p_kind p) = false ∧ is_Some (key_of (p_kind p)) ∧ e = KeyError (p_kind p))
  ∨ ((key_of (p_kind p) = None ∨ key_of (p_name p) = None) ∧ e = TypeError).
Proof.
  rewrite <- recognized_lookup. unfold place.
  intros [H|(f & Hf & H)]%bind_Raise.
  - rewrite H. pose proof H as H'.
    apply setters_getitem_Raise in H as [->|[? ->]]; [left|right; by eauto].
    split; [done|]. split; [|done].
    unfold key_of. destruct (hash (p_kind p)) eqn:E; [by eauto|].
    unfold setters_getitem in H'. rewrite E in H'. simpl in H'.
    apply hash_Raise in E. congruence.
  - right. apply bind_Raise in H as [H|(s1 & _ & H)].
    + destruct (p_default p); [|done].
      apply defaults_setitem_Raise in H as [? ->]. eauto.
    + apply types_setitem_Raise in H as [? ->]. eauto.
Qed.

Lemma json_record_Some (arg : pyval) (p : param) :
  json_record arg = Some p →
  getitem arg "name" = Ok (p_name p) ∧ getitem arg "kind" = Ok (p_kind p).
Proof.
  destruct arg as [| | | | |d]; try done. unfold json_record, getitem.
  destruct (assoc "name" d) as [n|]; [|done].
  destruct (assoc "kind" d) as [k|]; [|done].
  destruct (assoc "types" d) as [t|]; [|done].
  cbn [mbind option_bind]. destruct (iter t) as [tys|]; [|done].
  by intros [= <-].
Qed.

Lemma json_step_Raise (spec : ArgumentSpec) (arg : pyval) (e : exn) :
  JsonDocBuilder._create_arguments_step spec arg = Raise e →
  is_KeyError_or_TypeError e = true.
Proof.
  unfold JsonDocBuilder._create_arguments_step, tuple.
  intros [H|(n & Hn & H)]%bind_Raise; [by eapply getitem_Raise|].
  apply bind_Raise in H as [H|(k & Hk & H)]; [by eapply getitem_Raise|].
  apply bind_Raise in H as [H|(f & Hf & H)].
  { by apply setters_getitem_Raise in H as [->|[_ ->]]. }
  apply getitem_Ok in Hn as (d & -> & Hn).
  apply bind_Raise in H as [H|(dv & Hdv & H)]; [done|].
  apply bind_Raise in H as [H|(s1 & Hs1 & H)].
  { destruct dv; try done; by apply defaults_setitem_Raise in H as [_ ->]. }
  apply bind_Raise in H as [H|(t & Ht & H)]; [by eapply getitem_Raise|].
  apply bind_Raise in H as [H|(tys & Htys & H)].
  { by apply iter_Raise in H as ->. }
  by apply types_setitem_Raise in H as [_ ->].
Qed.

Lemma json_step_unrecognized (spec : ArgumentSpec) (arg : pyval) :
  json_kind_recognized arg = false →
  is_Ok (JsonDocBuilder._create_arguments_step spec arg) = false.
Proof.
  intros Hbad. destruct (JsonDocBuilder._create_arguments_step spec arg) eqn:E; [|done].
  apply json_step_Ok in E as (p & [_ Hk]%json_record_Some & Hp).
  apply place_effect in Hp as (_ & _ & Hr & _).
  unfold json_kind_recognized in Hbad. rewrite Hk in Hbad. congruence.
Qed.

Lemma for_each_Raise {S A} (body : S → A → result S) (P : exn → Prop) (s : S) (l : list A) :
  (∀ s a e, body s a = Raise e → P e) →
  Exists (λ a, ∀ s, is_Ok (body s a) = false) l →
  ∃ e, for_each body s l = Raise e ∧ P e.
Proof.
  intros HP Hex. revert s. induction l as [|a l IH]; intros s.
  { by apply Exists_nil in Hex. }
  simpl. destruct (body s a) as [s1|e] eqn:E; simpl.
  - apply Exists_cons in Hex as [Ha|Hl]; [|by apply IH].
    specialize (Ha s). by rewrite E in Ha.
  - exists e. split; [done|]. by eapply HP.
Qed.

Lemma for_each_total {S A} (body : S → A → result S) (s : S) (l : list A) :
  Forall (λ a, ∀ s, is_Ok (body s a) = true) l →
  is_Ok (for_each body s l) = true.
Proof.
  intros Hall. revert s. induction Hall as [|a l Ha _ IH]; intros s; simpl; [done|].
  specialize (Ha s). destruct (body s a); [apply IH|done].
Qed.

(** ** Separators, groups and mappings *)

Lemma json_loop_place (spec : ArgumentSpec) (args : list pyval) :
  Forall (λ arg, is_Some (json_record arg)) args →
  for_each JsonDocBuilder._create_arguments_step spec args =
  for_each place spec (omap json_record args).
Proof.
  intros Hall. revert spec. induction Hall as [|arg args [p Hp] _ IH]; intros spec; simpl; [done|].
  rewrite Hp, (json_step_place _ _ _ Hp). simpl.
  destruct (place spec p); simpl; [apply IH|done].
Qed.

Lemma json_records_filter (args : list pyval) :
  Forall (λ arg, is_Some (json_record arg)) args →
  omap json_record (filter (λ a, json_is_separator a = false) args) =
  filter (λ p, is_marker (p_kind p) = false) (omap json_record args).
Proof.
  induction 1 as [|arg args [p Hp] _ IH]; [done|].
  destruct (json_record_Some _ _ Hp) as [_ Hk].
  assert (json_is_separator arg = is_marker (p_kind p)) as Hs.
  { unfold json_is_separator. by rewrite Hk. }
  rewrite filter_cons. simpl. rewrite Hp, filter_cons, Hs.
  case_decide; simpl; rewrite ?Hp; by f_equal.
Qed.

Lemma xml_records_filter (args : list Element) :
  omap xml_record (filter (λ a, xml_is_separator a = false) args) =
  filter (λ p, is_marker (p_kind p) = false) (omap xml_record args).
Proof.
  induction args as [|arg args IH]; [done|].
  rewrite filter_cons. simpl.
  destruct (xml_record arg) as [p|] eqn:Hp.
  - assert (p_kind p = str_or_None (attr arg "kind")) as Hk.
    { unfold xml_record in Hp. destruct (find arg "name"); [|done].
      simpl in Hp. by injection Hp as <-. }
    rewrite filter_cons, Hk. unfold xml_is_separator.
    case_decide; simpl; rewrite ?Hp; by f_equal.
  - case_decide; simpl; rewrite ?Hp; done.
Qed.

Lemma kind_is_not_marker (token : string) (kind : pyval) :
  token ≠ ArgInfo.POSITIONAL_ONLY_MARKER → token ≠ ArgInfo.NAMED_ONLY_MARKER →
  kind_is token kind = true → is_marker kind = false.
Proof.
  unfold is_marker, kind_is. destruct kind as [| | |s| |]; try done.
  intros H1 H2 ->%String.eqb_eq.
  apply orb_false_intro; by apply String.eqb_neq.
Qed.

Lemma names_of_kind_without_markers (token : string) (ps : list param) :
  token ≠ ArgInfo.POSITIONAL_ONLY_MARKER → token ≠ ArgInfo.NAMED_ONLY_MARKER →
  names_of_kind token (filter (λ p, is_marker (p_kind p) = false) ps) =
  names_of_kind token ps.
Proof.
  intros H1 H2. unfold names_of_kind. f_equal.
  induction ps as [|p ps IH]; [done|].
  rewrite !filter_cons.
  destruct (kind_is token (p_kind p)) eqn:Hk.
  - rewrite (kind_is_not_marker _ _ H1 H2 Hk).
    rewrite decide_True by done. rewrite filter_cons, Hk.
    rewrite !decide_True by done. by f_equal.
  - rewrite (decide_False (P := false = true)) by done.
    case_decide; [|done]. rewrite filter_cons, Hk.
    by rewrite decide_False by done.
Qed.

Lemma place_without_markers (spec : ArgumentSpec) (ps : list param) (spec' : ArgumentSpec) :
  for_each place spec ps = Ok spec' →
  ∃ spec'', for_each place spec (filter (λ p, is_marker (p_kind p) = false) ps) = Ok spec''
            ∧ groups spec'' = groups spec'.
Proof.
  intros H. destruct (place_all _ _ _ H) as (Hg & _ & _ & Hall).
  destruct (for_each place spec (filter _ ps)) as [spec''|e] eqn:E.
  - exists spec''. split; [done|].
    destruct (place_all _ _ _ E) as (Hg' & _).
    rewrite Hg, Hg'. by rewrite !names_of_kind_without_markers.
  - assert (is_Ok (for_each place spec
              (filter (λ p, is_marker (p_kind p) = false) ps)) = true) as Hok.
    { apply for_each_total, Forall_forall. intros p [_ Hp]%list_elem_of_filter s.
      rewrite Forall_forall in Hall. destruct (Hall p Hp). by apply place_total. }
    by rewrite E in Hok.
Qed.

Lemma named_last (k : hkey) (ps : list param) (p : param) :
  p ∈ ps → key_of (p_name p) = Some k → is_Some (last (named k ps)).
Proof.
  intros Hp Hk. apply last_is_Some. intros Hnil.
  assert (p ∈ named k ps) as Hin by (by apply list_elem_of_filter).
  rewrite Hnil in Hin. by apply elem_of_nil in Hin.
Qed.

Lemma place_types_entry (spec : ArgumentSpec) (ps : list param) (spec' : ArgumentSpec) (p : param) :
  for_each place spec ps = Ok spec' → p ∈ ps →
  ∃ k, key_of (p_name p) = Some k ∧ is_Some (types spec' !! k).
Proof.
  intros H Hp. destruct (place_all _ _ _ H) as (_ & _ & Ht & Hall).
  rewrite Forall_forall in Hall. destruct (Hall p Hp) as [_ [k Hk]].
  exists k. split; [done|]. rewrite Ht.
  destruct (named_last k ps p Hp Hk) as [q ->]. eauto.
Qed.

Lemma json_records_all (args : list pyval) :
  Forall (λ arg, is_Some (json_record arg)) args →
  Forall2 (λ arg p, json_record arg = Some p) args (omap json_record args).
Proof.
  induction 1 as [|arg args [p Hp] _ IH]; simpl; [constructor|].
  rewrite Hp. by constructor.
Qed.

Lemma place_grouped (ps : list param) (spec : ArgumentSpec) :
  for_each place ArgumentSpec_new ps = Ok spec → grouped spec ps.
Proof.
  intros (Hg & _)%place_all. unfold groups in Hg. simpl in Hg.
  injection Hg as E1 E2 E3 E4 E5. by repeat split.
Qed.

Lemma place_mapped (ps : list param) (spec : ArgumentSpec) :
  for_each place ArgumentSpec_new ps = Ok spec → mapped spec ps.
Proof.
  intros H. destruct (place_all _ _ _ H) as (_ & Hd & Ht & Hall).
  split; [|split].
  - intros k. rewrite Hd. simpl. rewrite lookup_empty.
    split.
    + destruct (last _) as [d|] eqn:E; [intros _|by intros [? ?]].
      apply last_Some_elem_of, list_elem_of_omap in E as (p & [? ?]%list_elem_of_filter & Hp).
      exists p. by rewrite Hp.
    + intros (p & Hp & Hk & [d Hd']).
      assert (d ∈ omap p_default (named k ps)) as Hin.
      { apply list_elem_of_omap. exists p. split; [by apply list_elem_of_filter|done]. }
      destruct (last _) eqn:E; [done|].
      apply last_None in E. rewrite E in Hin. by apply elem_of_nil in Hin.
  - intros p Hp. by eapply place_types_entry.
  - intros k. rewrite Ht. simpl. rewrite lookup_empty. by destruct (last _).
Qed.

(** C1, as amended: a record whose kind is a separator marker contributes no
    entry to any of the five groups: they are the groups built from the
    records without the separators.  Its name is still entered in the types
    mapping.  This holds of both builders, whenever they return. *)
Theorem separator_contributes_to_no_group :
  (∀ args spec,
     JsonDocBuilder._create_arguments (PList args) = Ok spec →
     (∃ spec',
        JsonDocBuilder._create_arguments
          (PList (filter (λ a, json_is_separator a = false) args)) = Ok spec'
        ∧ groups spec' = groups spec)
     ∧ (∀ arg, arg ∈ args → json_is_separator arg = true →
        ∃ n k, getitem arg "name" = Ok n ∧ key_of n = Some k
               ∧ is_Some (types spec !! k)))
  ∧ (∀ elem spec,
     XmlDocBuilder._create_arguments elem = Ok spec →
     (∃ spec',
        for_each XmlDocBuilder._create_arguments_step ArgumentSpec_new
          (filter (λ a, xml_is_separator a = false) (findall elem "arguments/arg"))
        = Ok spec'
        ∧ groups spec' = groups spec)
     ∧ (∀ arg name_elem, arg ∈ findall elem "arguments/arg" →
        xml_is_separator arg = true → find arg "name" = Some name_elem →
        ∃ k, key_of (str_or_None (text name_elem)) = Some k
             ∧ is_Some (types spec !! k))).
Proof.
  split.
  - intros args spec H. unfold JsonDocBuilder._create_arguments in *. simpl in *.
    destruct (json_loop_Ok _ _ _ H) as [Hall Hloop]. split.
    + destruct (place_without_markers _ _ _ Hloop) as (spec' & H' & Hg).
      exists spec'. split; [|done].
      rewrite json_loop_place.
      2: { apply Forall_forall. intros a [_ Ha]%list_elem_of_filter.
           rewrite Forall_forall in Hall. by apply Hall. }
      by rewrite json_records_filter.
    + intros arg Hin _. rewrite Forall_forall in Hall.
      destruct (Hall arg Hin) as [p Hp].
      destruct (json_record_Some _ _ Hp) as [Hn _].
      destruct (place_types_entry _ _ _ p Hloop) as (k & Hk & Ht).
      { apply list_elem_of_omap. eauto. }
      eauto.
  - intros elem spec H. unfold XmlDocBuilder._create_arguments in *.
    rewrite xml_loop_place in H. split.
    + destruct (place_without_markers _ _ _ H) as (spec' & H' & Hg).
      exists spec'. split; [|done].
      by rewrite xml_loop_place, xml_records_filter.
    + intros arg name_elem Hin _ Hname.
      destruct (place_types_entry _ _ _
        (mkParam (str_or_None (text name_elem)) (str_or_None (attr arg "kind"))
           ((λ e, PStr (text_or_empty e)) <$> find arg "default")
           (map (λ t, str_or_None (text t)) (findall arg "type"))) H) as (k & Hk & Ht).
      { apply list_elem_of_omap. exists arg. split; [done|].
        unfold xml_record. by rewrite Hname. }
      eauto.
Qed.

(** C2: each builder, when it returns, has placed the name of every record in
    the group its kind selects, the ordered groups keeping the order of the
    records and each single slot holding the name written last.  Variant A
    reads every element of the sequence as a record; variant B reads the
    [arg] elements that have a [name] child.  And each builder does return,
    with the names so placed, on every sequence whose records are of the
    seven kinds (in variant A: dicts with a hashable name, a kind and
    iterable types). *)
Theorem names_grouped_by_kind_in_order :
  (∀ args spec,
     JsonDocBuilder._create_arguments (PList args) = Ok spec →
     ∃ ps, Forall2 (λ arg p, json_record arg = Some p) args ps ∧ grouped spec ps)
  ∧ (∀ elem spec,
     XmlDocBuilder._create_arguments elem = Ok spec →
     grouped spec (omap xml_record (findall elem "arguments/arg")))
  ∧ (∀ args,
     Forall (λ arg, json_arg_ok arg = true) args →
     ∃ spec ps, JsonDocBuilder._create_arguments (PList args) = Ok spec
                ∧ Forall2 (λ arg p, json_record arg = Some p) args ps
                ∧ grouped spec ps)
  ∧ (∀ elem,
     Forall (λ arg, xml_arg_ok arg = true) (findall elem "arguments/arg") →
     ∃ spec, XmlDocBuilder._create_arguments elem = Ok spec
             ∧ grouped spec (omap xml_record (findall elem "arguments/arg"))).
Proof.
  assert (∀ args spec,
            JsonDocBuilder._create_arguments (PList args) = Ok spec →
            ∃ ps, Forall2 (λ arg p, json_record arg = Some p) args ps
                  ∧ grouped spec ps) as HA.
  { intros args spec H. unfold JsonDocBuilder._create_arguments in H. simpl in H.
    destruct (json_loop_Ok _ _ _ H) as [Hall Hloop].
    exists (omap json_record args). split; [by apply json_records_all|].
    by apply place_grouped. }
  assert (∀ elem spec,
            XmlDocBuilder._create_arguments elem = Ok spec →
            grouped spec (omap xml_record (findall elem "arguments/arg"))) as HB.
  { intros elem spec H. unfold XmlDocBuilder._create_arguments in H.
    rewrite xml_loop_place in H. by apply place_grouped. }
  split; [done|]. split; [done|]. split.
  - intros args Hall.
    destruct (JsonDocBuilder._create_arguments (PList args)) as [spec|e] eqn:E.
    { destruct (HA _ _ E) as (ps & ? & ?). by exists spec, ps. }
    assert (is_Ok (JsonDocBuilder._create_arguments (PList args)) = true) as Hok.
    { unfold JsonDocBuilder._create_arguments. simpl.
      apply for_each_total. eapply Forall_impl; [done|].
      intros arg Harg s. unfold json_arg_ok in Harg.
      destruct (json_record arg) as [p|] eqn:Hp; [|done].
      apply andb_true_iff in Harg as [Hr Hk].
      rewrite (json_step_place _ _ _ Hp). apply place_total; [done|].
      by destruct (key_of (p_name p)). }
    by rewrite E in Hok.
  - intros elem Hall.
    destruct (XmlDocBuilder._create_arguments elem) as [spec|e] eqn:E.
    { exists spec. split; [done|]. by apply HB. }
    assert (is_Ok (XmlDocBuilder._create_arguments elem) = true) as Hok.
    { unfold XmlDocBuilder._create_arguments.
      apply for_each_total. eapply Forall_impl; [done|].
      intros arg Harg s. rewrite xml_step_place. unfold xml_arg_ok in Harg.
      destruct (xml_record arg) as [p|] eqn:Hp; [|done].
      apply place_total; [done|].
      unfold xml_record in Hp. destruct (find arg "name") as [n|]; [|done].
      simpl in Hp. injection Hp as <-. simpl. destruct (text n); by eauto. }
    by rewrite E in Hok.
Qed.

(** C3: each builder, when it returns, has a defaults entry under a name
    exactly when a record of that name supplied a default (variant A: a
    [defaultValue] other than [None]; variant B: a [default] child), and a
    types entry under the name of every record, holding the types of the
    last record of that name: the empty sequence when it lists none. *)
Theorem defaults_and_types_recorded :
  (∀ args spec,
     JsonDocBuilder._create_arguments (PList args) = Ok spec →
     ∃ ps, Forall2 (λ arg p, json_record arg = Some p) args ps ∧ mapped spec ps)
  ∧ (∀ elem spec,
     XmlDocBuilder._create_arguments elem = Ok spec →
     mapped spec (omap xml_record (findall elem "arguments/arg"))).
Proof.
  split.
  - intros args spec H. unfold JsonDocBuilder._create_arguments in H. simpl in H.
    destruct (json_loop_Ok _ _ _ H) as [Hall Hloop].
    exists (omap json_record args). split; [by apply json_records_all|].
    by apply place_mapped.
  - intros elem spec H. unfold XmlDocBuilder._create_arguments in H.
    rewrite xml_loop_place in H. by apply place_mapped.
Qed.

Lemma xml_record_hashable (arg : Element) (p : param) :
  xml_record arg = Some p →
  is_Some (key_of (p_name p)) ∧ is_Some (key_of (p_kind p)).
Proof.
  unfold xml_record. destruct (find arg "name") as [name_elem|]; [|done].
  simpl. intros [= <-]. simpl.
  split; [destruct (text name_elem)|destruct (attr arg "kind")]; by eauto.
Qed.

Lemma xml_step_Raise (spec : ArgumentSpec) (arg : Element) (e : exn) :
  XmlDocBuilder._create_arguments_step spec arg = Raise e →
  ∃ kind, e = KeyError kind.
Proof.
  rewrite xml_step_place. destruct (xml_record arg) as [p|] eqn:Hp; [|done].
  destruct (xml_record_hashable _ _ Hp) as [[k1 Hn] [k2 Hk]].
  intros [(_ & _ & ->)|[[?|?] _]]%place_Raise; [by eauto|congruence..].
Qed.

Lemma place_unrecognized (spec : ArgumentSpec) (p : param) :
  recognized (p_kind p) = false → is_Ok (place spec p) = false.
Proof.
  rewrite <- recognized_lookup. unfold place.
  by destruct (setters_getitem (p_kind p)).
Qed.

(** C4, as amended: a record whose kind is not one of the seven tokens makes
    the reconstruction fail with Python's own [KeyError] or [TypeError], not
    with a domain error; in variant B this holds of the records that have a
    [name] child, the others being skipped, and the error is a [KeyError].
    The reconstruction returns on every sequence whose records have a
    kind that is one of the seven tokens and, in variant A, also a hashable
    name and iterable types. *)
Theorem unrecognized_kind_raises :
  (∀ args,
     Exists (λ arg, json_kind_recognized arg = false) args →
     ∃ e, JsonDocBuilder._create_arguments (PList args) = Raise e
          ∧ is_KeyError_or_TypeError e = true)
  ∧ (∀ elem,
     Exists (λ arg, ∃ p, xml_record arg = Some p ∧ recognized (p_kind p) = false)
       (findall elem "arguments/arg") →
     ∃ kind, XmlDocBuilder._create_arguments elem = Raise (KeyError kind))
  ∧ (∀ args,
     Forall (λ arg, ∃ p, json_record arg = Some p ∧ recognized (p_kind p) = true
                         ∧ is_Some (key_of (p_name p))) args →
     is_Ok (JsonDocBuilder._create_arguments (PList args)) = true)
  ∧ (∀ elem,
     Forall (λ arg, ∀ p, xml_record arg = Some p → recognized (p_kind p) = true)
       (findall elem "arguments/arg") →
     is_Ok (XmlDocBuilder._create_arguments elem) = true).
Proof.
  split; [|split; [|split]].
  - intros args Hex. unfold JsonDocBuilder._create_arguments. simpl.
    apply for_each_Raise; [apply json_step_Raise|].
    eapply Exists_impl; [done|]. intros arg Hbad s.
    by apply json_step_unrecognized.
  - intros elem Hex. unfold XmlDocBuilder._create_arguments.
    destruct (for_each_Raise XmlDocBuilder._create_arguments_step
                (λ e, ∃ kind, e = KeyError kind) ArgumentSpec_new
                (findall elem "arguments/arg")) as (e & He & kind & ->).
    + apply xml_step_Raise.
    + eapply Exists_impl; [done|]. intros arg (p & Hp & Hbad) s.
      rewrite xml_step_place, Hp. by apply place_unrecognized.
    + eauto.
  - intros args Hall. unfold JsonDocBuilder._create_arguments. simpl.
    apply for_each_total. eapply Forall_impl; [done|].
    intros arg (p & Hp & Hr & Hn) s.
    rewrite (json_step_place _ _ _ Hp). by apply place_total.
  - intros elem Hall. unfold XmlDocBuilder._create_arguments.
    apply for_each_total. eapply Forall_impl; [done|].
    intros arg Hr s. rewrite xml_step_place.
    destruct (xml_record arg) as [p|] eqn:Hp; [|done].
    apply place_total; [by apply Hr|]. by apply (xml_record_hashable arg).
Qed.

(** ** Building documents *)

Lemma comprehension_Forall2 {A B} (f : A → result B) (l : list A) (l' : list B) :
  comprehension f l = Ok l' → Forall2 (λ a b, f a = Ok b) l l'.
Proof.
  revert l'. induction l as [|a l IH]; intros l'; simpl.
  - intros [= <-]. constructor.
  - intros (b & Hb & (bs & Hbs & [= <-])%bind_Ok)%bind_Ok.
    constructor; [done|by apply IH].
Qed.

Lemma parse_spec_Ok (fs : string → file_state Element) (path : string) (root : Element) :
  XmlDocBuilder._parse_spec fs path = Ok root → fs path = Parsed root.
Proof.
  unfold XmlDocBuilder._parse_spec.
  destruct (fs path) as [| | |r]; simpl; try done.
  destruct (negb _); [done|]. destruct (negb _); [done|]. by intros [= ->].
Qed.

(** C5, as amended: a variant-A document with one keyword whose parameter
    records are the separator record with an empty [types] list and the
    record of [y] builds, for that keyword, empty positional-only parameters,
    the positional-or-named parameter [y], the default [5] for [y], and the
    types [{"_": [], "y": ["int"]}]. *)
Theorem separator_then_y_scenario (spec kw : pyval) (libdoc : LibraryDoc.t) :
  getitem spec "keywords" = Ok (PList [kw]) →
  getitem kw "args" = Ok (PList [separator_record; y_record]) →
  JsonDocBuilder.build_from_dict spec = Ok libdoc →
  ∃ k, LibraryDoc.keywords libdoc = [k]
       ∧ groups (KeywordDoc.args k) = ([], [PStr "y"], PNone, [], PNone)
       ∧ defaults (KeywordDoc.args k) = {[ KStr "y" := PInt 5 ]}
       ∧ types (KeywordDoc.args k) = {[ KStr "_" := []; KStr "y" := [PStr "int"] ]}.
Proof.
  intros Hkws Hargs H. unfold JsonDocBuilder.build_from_dict in H.
  do 12 (apply bind_Ok in H as (? & _ & H)).
  rewrite Hkws in H. apply bind_Ok in H as (? & [= <-] & H).
  apply bind_Ok in H as (l & [= <-] & H).
  apply bind_Ok in H as (kws & Hk & H).
  do 2 (apply bind_Ok in H as (? & _ & H)).
  injection H as <-. simpl.
  apply comprehension_Forall2 in Hk.
  apply Forall2_cons_inv_l in Hk as (k & ? & Hk & ->%Forall2_nil_inv_l & ->).
  exists k. split; [done|].
  unfold JsonDocBuilder._create_keyword in Hk.
  apply bind_Ok in Hk as (? & _ & Hk). rewrite Hargs in Hk.
  apply bind_Ok in Hk as (? & [= <-] & Hk).
  apply bind_Ok in Hk as (a & Ha & Hk).
  do 6 (apply bind_Ok in Hk as (? & _ & Hk)).
  injection Hk as <-. simpl.
  vm_compute in Ha. injection Ha as <-. by vm_compute.
Qed.

(** C6: whatever else a variant-B document holds, a root whose tag is not
    [keywordspec] makes [build] fail with the domain error
    "Invalid spec file '<path>'.", and otherwise a [specversion] other than
    "3" and "4" (or none) makes it fail with the domain error that names the
    supported versions 3 and 4. *)
Theorem root_and_version_checked_first
  (fs : string → file_state Element) (path : string) (root : Element) :
  fs path = Parsed root →
  (tag root ≠ "keywordspec" →
   XmlDocBuilder.build fs path =
   Raise (DataError ("Invalid spec file '" +:+ path +:+ "'.")))
  ∧ (tag root = "keywordspec" →
     attr root "specversion" ≠ Some "3" → attr root "specversion" ≠ Some "4" →
     XmlDocBuilder.build fs path =
     Raise (DataError ("Invalid spec file version '"
                       +:+ default "None" (attr root "specversion")
                       +:+ "'. Supported versions are 3 and 4."))).
Proof.
  intros Hfs. unfold XmlDocBuilder.build, XmlDocBuilder._parse_spec.
  rewrite Hfs. simpl. split.
  - intros Htag%String.eqb_neq. by rewrite Htag.
  - intros Htag%String.eqb_eq H3 H4. rewrite Htag. simpl.
    rewrite !bool_decide_eq_false_2 by done. simpl.
    by destruct (attr root "specversion").
Qed.

(** C7, as amended: for every path at which there is no regular file
    ([os.path.isfile] is false), [build] of either variant fails with the
    domain error "Spec file '<path>' does not exist.". *)
Theorem missing_file_raises
  (fsA : string → file_state pyval) (fsB : string → file_state Element)
  (path : string) :
  (isfile (fsA path) = false →
   JsonDocBuilder.build fsA path =
   Raise (DataError ("Spec file '" +:+ path +:+ "' does not exist.")))
  ∧ (isfile (fsB path) = false →
     XmlDocBuilder.build fsB path =
     Raise (DataError ("Spec file '" +:+ path +:+ "' does not exist."))).
Proof.
  unfold JsonDocBuilder.build, JsonDocBuilder._parse_spec_json,
    XmlDocBuilder.build, XmlDocBuilder._parse_spec.
  split; by intros ->.
Qed.

Lemma build_Ok_lineno
  (fs : string → file_state Element) (path : string) (libdoc : LibraryDoc.t) :
  XmlDocBuilder.build fs path = Ok libdoc →
  ∃ root v z, fs path = Parsed root ∧ attr root "lineno" = Some v
              ∧ int_of_str v = Some z
              ∧ LibraryDoc.lineno libdoc = (if z =? 0 then -1 else z)
              ∧ XmlDocBuilder._create_keywords root "inits/init"
                  (str_or_None (attr root "source")) = Ok (LibraryDoc.inits libdoc)
              ∧ XmlDocBuilder._create_keywords root "keywords/kw"
                  (str_or_None (attr root "source")) = Ok (LibraryDoc.keywords libdoc).
Proof.
  unfold XmlDocBuilder.build. intros (root & Hroot%parse_spec_Ok & H)%bind_Ok.
  do 3 (apply bind_Ok in H as (? & _ & H)).
  apply bind_Ok in H as (z & Hz & H).
  apply bind_Ok in H as (inits & Hinits & H).
  apply bind_Ok in H as (kws & Hkws & H).
  apply bind_Ok in H as (? & _ & H). injection H as <-. simpl.
  destruct (attr root "lineno") as [v|] eqn:Hattr; [|done]. simpl in Hz.
  destruct (int_of_str v) as [z'|] eqn:Hv; [|done]. injection Hz as ->.
  by exists root, v, z.
Qed.

(** C8: the library-level line number.  A document whose root has no
    [lineno] attribute builds no library document at all ([int(None)]
    raises), where the claim has [-1]; when [build] returns, the root has a
    [lineno], and the line number is [-1] if it parses to zero and the
    parsed value otherwise. *)
Theorem library_lineno_absent_raises
  (fs : string → file_state Element) (path : string) (root : Element) :
  fs path = Parsed root →
  (attr root "lineno" = None → is_Ok (XmlDocBuilder.build fs path) = false)
  ∧ (∀ libdoc, XmlDocBuilder.build fs path = Ok libdoc →
       ∃ v z, attr root "lineno" = Some v ∧ int_of_str v = Some z
              ∧ LibraryDoc.lineno libdoc = (if z =? 0 then -1 else z)).
Proof.
  intros Hfs.
  assert (∀ libdoc, XmlDocBuilder.build fs path = Ok libdoc →
            ∃ v z, attr root "lineno" = Some v ∧ int_of_str v = Some z
                   ∧ LibraryDoc.lineno libdoc = (if z =? 0 then -1 else z)) as Hok.
  { intros libdoc (r & v & z & Hr & Hv & Hz & Hl & _)%build_Ok_lineno.
    rewrite Hfs in Hr. injection Hr as <-. eauto. }
  split; [|done]. intros Hnone.
  destruct (XmlDocBuilder.build fs path) as [libdoc|] eqn:E; [|done].
  destruct (Hok libdoc eq_refl) as (v & _ & Hv & _). congruence.
Qed.

(** C9: the [required] field of a record-type item is [None] when the source
    gives none, [True] for the boolean true of variant A and the text "true"
    of variant B, [False] for the boolean false of variant A and the text
    "false" of variant B. *)
Theorem required_is_tristate :
  (∀ data items doc,
     getitem data "items" = Ok (PList items) →
     JsonDocBuilder._create_typed_dict_doc data = Ok doc →
     Forall2 json_required items (TypedDictDoc.items doc))
  ∧ (∀ elem doc,
     XmlDocBuilder._create_typed_dict_doc elem = Ok doc →
     Forall2 xml_required (findall elem "items/item") (TypedDictDoc.items doc)).
Proof.
  split.
  - intros data items doc Hitems H. unfold JsonDocBuilder._create_typed_dict_doc in H.
    do 2 (apply bind_Ok in H as (? & _ & H)). rewrite Hitems in H.
    apply bind_Ok in H as (? & [= <-] & H).
    apply bind_Ok in H as (? & [= <-] & H).
    apply bind_Ok in H as (its & Hits%comprehension_Forall2 & [= <-]). simpl.
    eapply Forall2_impl; [done|]. intros item it Hit.
    unfold JsonDocBuilder._create_typed_dict_item in Hit.
    apply bind_Ok in Hit as (? & (d & -> & _)%getitem_Ok & Hit).
    apply bind_Ok in Hit as (? & _ & Hit).
    apply bind_Ok in Hit as (r & [= <-] & [= <-]). simpl.
    exists d. split; [done|]. by repeat split; intros ->.
  - intros elem doc H. unfold XmlDocBuilder._create_typed_dict_doc in H.
    apply bind_Ok in H as (? & _ & [= <-]). simpl.
    apply Forall2_fmap_r, Forall_Forall2_diag, Forall_forall.
    intros item _. unfold xml_required, XmlDocBuilder._create_typed_dict_item. simpl.
    by repeat split; intros ->.
Qed.



(** ** The properties on sample documents *)

(** C1 as stated fails: a separator record leaves an entry under its name in
    the types mapping, and in the defaults mapping when it has a default, in
    both variants. *)
Lemma separator_record_gets_types_entry :
  (json_is_separator separator_record_with_default = true
   ∧ ∃ spec, JsonDocBuilder._create_arguments (PList [separator_record_with_default])
             = Ok spec
             ∧ types spec !! KStr "_" = Some []
             ∧ defaults spec !! KStr "_" = Some (PInt 0))
  ∧ (xml_is_separator separator_arg = true
     ∧ ∃ spec, XmlDocBuilder._create_arguments (kw_element [] [separator_arg]) = Ok spec
               ∧ types spec !! KStr "_" = Some []).
Proof.
  split; (split; [reflexivity|]); eexists; (split; [vm_compute; reflexivity|]);
    by vm_compute.
Qed.

Lemma separator_contributes_to_no_group_witness :
  (∃ spec',
     JsonDocBuilder._create_arguments
       (PList (filter (λ a, json_is_separator a = false)
                 [separator_record; y_record; separator_record_with_default]))
     = Ok spec'
     ∧ groups spec' = ([], [PStr "y"], PNone, [], PNone))
  ∧ (∃ spec',
       for_each XmlDocBuilder._create_arguments_step ArgumentSpec_new
         (filter (λ a, xml_is_separator a = false)
            (findall (kw_element [] [separator_arg; y_arg]) "arguments/arg"))
       = Ok spec'
       ∧ groups spec' = ([], [PStr "y"], PNone, [], PNone)).
Proof.
  destruct separator_contributes_to_no_group as [HA HB]. split.
  - destruct (HA [separator_record; y_record; separator_record_with_default]
                (mkArgumentSpec [] [PStr "y"] PNone [] PNone
                   {[ KStr "y" := PInt 5; KStr "_" := PInt 0 ]}
                   {[ KStr "_" := []; KStr "y" := [PStr "int"] ]}))
      as [H _]; [by vm_compute|exact H].
  - destruct (HB (kw_element [] [separator_arg; y_arg])
                (mkArgumentSpec [] [PStr "y"] PNone [] PNone
                   {[ KStr "y" := PStr "5" ]}
                   {[ KStr "_" := []; KStr "y" := [PStr "int"] ]}))
      as [H _]; [by vm_compute|exact H].
Defined.

Lemma names_grouped_by_kind_in_order_witness :
  (∃ ps, Forall2 (λ arg p, json_record arg = Some p)
           [separator_record; y_record; rest_record] ps
         ∧ grouped (mkArgumentSpec [] [PStr "y"] (PStr "rest") [] PNone
                      {[ KStr "y" := PInt 5 ]}
                      {[ KStr "_" := []; KStr "y" := [PStr "int"]; KStr "rest" := [] ]})
             ps)
  ∧ grouped (mkArgumentSpec [] [PStr "y"] PNone [] PNone
               {[ KStr "y" := PStr "5" ]}
               {[ KStr "_" := []; KStr "y" := [PStr "int"] ]})
      (omap xml_record (findall (kw_element [] [separator_arg; y_arg]) "arguments/arg"))
  ∧ (∃ spec ps,
       JsonDocBuilder._create_arguments (PList seven_records) = Ok spec
       ∧ Forall2 (λ arg p, json_record arg = Some p) seven_records ps
       ∧ grouped spec ps
       ∧ groups spec
         = ([PStr "a"], [PStr "b"], PStr "args", [PStr "c"], PStr "kwargs"))
  ∧ (∃ spec,
       XmlDocBuilder._create_arguments seven_args = Ok spec
       ∧ grouped spec (omap xml_record (findall seven_args "arguments/arg"))
       ∧ groups spec
         = ([PStr "a"], [PStr "b"], PStr "args", [PStr "c"], PStr "kwargs")).
Proof.
  destruct names_grouped_by_kind_in_order as (HA & HB & HC & HD).
  split; [|split; [|split]].
  - apply (HA [separator_record; y_record; rest_record]). by vm_compute.
  - apply (HB (kw_element [] [separator_arg; y_arg])). by vm_compute.
  - destruct (HC seven_records) as (spec & ps & Hs & Hps & Hg).
    { repeat constructor. }
    exists spec, ps. split; [done|]. split; [done|]. split; [done|].
    vm_compute in Hs. injection Hs as <-. reflexivity.
  - destruct (HD seven_args) as (spec & Hs & Hg).
    { repeat constructor. }
    exists spec. split; [done|]. split; [done|].
    vm_compute in Hs. injection Hs as <-. reflexivity.
Defined.

Lemma defaults_and_types_recorded_witness :
  (∃ ps, Forall2 (λ arg p, json_record arg = Some p)
           [separator_record; y_record; rest_record] ps
         ∧ mapped (mkArgumentSpec [] [PStr "y"] (PStr "rest") [] PNone
                     {[ KStr "y" := PInt 5 ]}
                     {[ KStr "_" := []; KStr "y" := [PStr "int"]; KStr "rest" := [] ]})
             ps)
  ∧ mapped (mkArgumentSpec [] [PStr "y"] PNone [] PNone
              {[ KStr "y" := PStr "5" ]}
              {[ KStr "_" := []; KStr "y" := [PStr "int"] ]})
      (omap xml_record (findall (kw_element [] [separator_arg; y_arg]) "arguments/arg")).
Proof.
  destruct defaults_and_types_recorded as [HA HB]. split.
  - apply (HA [separator_record; y_record; rest_record]). by vm_compute.
  - apply (HB (kw_element [] [separator_arg; y_arg])). by vm_compute.
Defined.

(** C4 as stated fails: an unrecognized kind raises [KeyError], which is not
    a domain error; a sequence of recognized kinds need not be accepted (the
    separator record without [types] raises [KeyError]); and variant B skips
    a record without [name], whatever its kind. *)
Lemma unrecognized_kind_raises_KeyError :
  (json_kind_recognized bogus_record = false
   ∧ JsonDocBuilder._create_arguments (PList [bogus_record])
     = Raise (KeyError (PStr "BOGUS"))
   ∧ is_DataError (KeyError (PStr "BOGUS")) = false)
  ∧ (json_kind_recognized separator_record_bare = true
     ∧ JsonDocBuilder._create_arguments (PList [separator_record_bare])
       = Raise (KeyError (PStr "types")))
  ∧ (recognized (str_or_None (attr nameless_bogus_arg "kind")) = false
     ∧ XmlDocBuilder._create_arguments (kw_element [] [nameless_bogus_arg])
       = Ok ArgumentSpec_new).
Proof. repeat split; by vm_compute. Qed.

Lemma unrecognized_kind_raises_witness :
  (∃ e, JsonDocBuilder._create_arguments (PList [y_record; bogus_record]) = Raise e
        ∧ is_KeyError_or_TypeError e = true)
  ∧ (∃ kind, XmlDocBuilder._create_arguments (kw_element [] [y_arg; bogus_arg])
             = Raise (KeyError kind))
  ∧ is_Ok (JsonDocBuilder._create_arguments (PList [separator_record; y_record])) = true
  ∧ is_Ok (XmlDocBuilder._create_arguments
             (kw_element [] [separator_arg; nameless_bogus_arg; y_arg])) = true.
Proof.
  destruct unrecognized_kind_raises as (H1 & H2 & H3 & H4).
  split; [|split; [|split]].
  - apply H1. apply Exists_cons_tl, Exists_cons_hd. reflexivity.
  - apply H2. apply Exists_cons_tl, Exists_cons_hd.
    eexists. split; reflexivity.
  - apply H3. repeat constructor.
    + eexists. split; [reflexivity|]. split; [reflexivity|]. by eexists.
    + eexists. split; [reflexivity|]. split; [reflexivity|]. by eexists.
  - apply H4. repeat constructor.
    + intros p [= <-]. reflexivity.
    + intros p. by vm_compute.
    + intros p [= <-]. reflexivity.
Defined.

(** C5 as stated fails: the separator record of the scenario has no [types],
    and the build of the document raises [KeyError]. *)
Lemma bare_separator_scenario_raises :
  JsonDocBuilder.build_from_dict
    (library_document [run_keyword [separator_record_bare; y_record]])
  = Raise (KeyError (PStr "types")).
Proof. by vm_compute. Qed.

Lemma separator_then_y_scenario_witness :
  ∃ libdoc,
    JsonDocBuilder.build_from_dict
      (library_document [run_keyword [separator_record; y_record]]) = Ok libdoc
    ∧ ∃ k, LibraryDoc.keywords libdoc = [k]
           ∧ groups (KeywordDoc.args k) = ([], [PStr "y"], PNone, [], PNone)
           ∧ defaults (KeywordDoc.args k) = {[ KStr "y" := PInt 5 ]}
           ∧ types (KeywordDoc.args k) = {[ KStr "_" := []; KStr "y" := [PStr "int"] ]}.
Proof.
  eexists. split; [by vm_compute|].
  eapply (separator_then_y_scenario
            (library_document [run_keyword [separator_record; y_record]])
            (run_keyword [separator_record; y_record])); by vm_compute.
Defined.

Lemma root_and_version_checked_first_witness :
  XmlDocBuilder.build (λ _, Parsed (mkElement "library" [] None [])) "lib.xml"
  = Raise (DataError "Invalid spec file 'lib.xml'.")
  ∧ XmlDocBuilder.build
      (λ _, Parsed (mkElement "keywordspec" [("specversion", "2")] None [])) "lib.xml"
    = Raise (DataError "Invalid spec file version '2'. Supported versions are 3 and 4.")
  ∧ XmlDocBuilder.build (λ _, Parsed (mkElement "keywordspec" [] None [])) "lib.xml"
    = Raise (DataError "Invalid spec file version 'None'. Supported versions are 3 and 4.").
Proof.
  split; [|split].
  - by apply (root_and_version_checked_first
                (λ _, Parsed (mkElement "library" [] None [])) "lib.xml" _ eq_refl).
  - by apply (root_and_version_checked_first
                (λ _, Parsed (mkElement "keywordspec" [("specversion", "2")] None []))
                "lib.xml" _ eq_refl).
  - by apply (root_and_version_checked_first
                (λ _, Parsed (mkElement "keywordspec" [] None [])) "lib.xml" _ eq_refl).
Defined.

(** C7 as stated fails: a file that exists and cannot be read passes the
    [os.path.isfile] check, and opening it raises Python's own error. *)
Lemma unreadable_file_raises_OSError :
  is_readable_file (@Unreadable pyval) = false
  ∧ JsonDocBuilder.build (λ _, Unreadable) "lib.json" = Raise OSError
  ∧ XmlDocBuilder.build (λ _, Unreadable) "lib.xml" = Raise OSError
  ∧ is_DataError OSError = false.
Proof. repeat split. Qed.

Lemma missing_file_raises_witness :
  JsonDocBuilder.build (λ _, NotAFile) "lib.json"
  = Raise (DataError "Spec file 'lib.json' does not exist.")
  ∧ XmlDocBuilder.build (λ _, NotAFile) "lib.json"
    = Raise (DataError "Spec file 'lib.json' does not exist.").
Proof.
  destruct (missing_file_raises (λ _, NotAFile) (λ _, NotAFile) "lib.json") as [HA HB].
  split; [by apply HA|by apply HB].
Defined.

Lemma library_lineno_absent_raises_witness :
  XmlDocBuilder.build (λ _, Parsed spec_without_lineno) "lib.xml" = Raise TypeError
  ∧ is_Ok (XmlDocBuilder.build (λ _, Parsed spec_without_lineno) "lib.xml") = false
  ∧ ∃ libdoc,
      XmlDocBuilder.build (λ _, Parsed spec_with_zero_lineno) "lib.xml" = Ok libdoc
      ∧ ∃ v z, attr spec_with_zero_lineno "lineno" = Some v ∧ int_of_str v = Some z
               ∧ LibraryDoc.lineno libdoc = (if z =? 0 then -1 else z).
Proof.
  split; [by vm_compute|]. split.
  - by apply (library_lineno_absent_raises (λ _, Parsed spec_without_lineno)
                "lib.xml" spec_without_lineno eq_refl).
  - eexists. split; [by vm_compute|].
    apply (library_lineno_absent_raises (λ _, Parsed spec_with_zero_lineno)
             "lib.xml" spec_with_zero_lineno eq_refl).
    by vm_compute.
Defined.

Lemma required_is_tristate_witness :
  Forall2 json_required
    [PDict [("key", PStr "x"); ("type", PStr "int")];
     PDict [("key", PStr "y"); ("type", PStr "int"); ("required", PBool true)];
     PDict [("key", PStr "z"); ("type", PStr "int"); ("required", PBool false)]]
    [TypedDictItem.mk (PStr "x") (PStr "int") PNone;
     TypedDictItem.mk (PStr "y") (PStr "int") (PBool true);
     TypedDictItem.mk (PStr "z") (PStr "int") (PBool false)]
  ∧ Forall2 xml_required (findall typed_dict_element "items/item")
      [TypedDictItem.mk (PStr "x") (PStr "int") PNone;
       TypedDictItem.mk (PStr "y") (PStr "int") (PBool true);
       TypedDictItem.mk (PStr "z") (PStr "int") (PBool false)].
Proof.
  destruct required_is_tristate as [HA HB]. split.
  - by apply (HA typed_dict_data _
                (TypedDictDoc.mk (PStr "Point") (PStr "A point.")
                   [TypedDictItem.mk (PStr "x") (PStr "int") PNone;
                    TypedDictItem.mk (PStr "y") (PStr "int") (PBool true);
                    TypedDictItem.mk (PStr "z") (PStr "int") (PBool false)])).
  - by apply (HB typed_dict_element
                (TypedDictDoc.mk (PStr "Point") (PStr "A point.")
                   [TypedDictItem.mk (PStr "x") (PStr "int") PNone;
                    TypedDictItem.mk (PStr "y") (PStr "int") (PBool true);
                    TypedDictItem.mk (PStr "z") (PStr "int") (PBool false)])).
Defined.


(** * Further properties of the builders *)

(** ** When the reconstruction returns *)

Lemma place_is_Ok (spec : ArgumentSpec) (p : param) :
  is_Ok (place spec p) =
  recognized (p_kind p)
  && match key_of (p_name p) with Some _ => true | None => false end.
Proof.
  destruct (recognized (p_kind p)) eqn:Hr.
  - destruct (key_of (p_name p)) as [k|] eqn:Hk; simpl.
    + apply place_total; by eauto.
    + destruct (place spec p) as [spec'|] eqn:E; [|done].
      apply place_effect in E as (k & Hk' & _). congruence.
  - by apply place_unrecognized.
Qed.

Lemma for_each_is_Ok {S A} (body : S → A → result S) (ok : A → bool) (s : S) (l : list A) :
  (∀ s a, is_Ok (body s a) = ok a) →
  is_Ok (for_each body s l) = forallb ok l.
Proof.
  intros Hok. revert s. induction l as [|a l IH]; intros s; simpl; [done|].
  rewrite <- (Hok s a). destruct (body s a); simpl; [apply IH|done].
Qed.


Lemma json_step_is_Ok (spec : ArgumentSpec) (arg : pyval) :
  is_Ok (JsonDocBuilder._create_arguments_step spec arg) = json_arg_ok arg.
Proof.
  unfold json_arg_ok. destruct (json_record arg) as [p|] eqn:Hp.
  - rewrite (json_step_place _ _ _ Hp). apply place_is_Ok.
  - destruct (JsonDocBuilder._create_arguments_step spec arg) eqn:E; [|done].
    apply json_step_Ok in E as (p & Hp' & _). congruence.
Qed.

Lemma xml_step_is_Ok (spec : ArgumentSpec) (arg : Element) :
  is_Ok (XmlDocBuilder._create_arguments_step spec arg) = xml_arg_ok arg.
Proof.
  rewrite xml_step_place. unfold xml_arg_ok.
  destruct (xml_record arg) as [p|] eqn:Hp; [|done].
  rewrite place_is_Ok. destruct (xml_record_hashable _ _ Hp) as [[k ->] _].
  apply andb_true_r.
Qed.

(** X1: the reconstruction returns exactly on the sequences all of whose
    records pass the test of their variant: in variant A a dict with a name,
    a kind and iterable types, the kind one of the seven and the name
    hashable; in variant B an [arg] that has no [name] or is of one of the
    seven kinds. *)
Theorem reconstruction_returns_exactly :
  (∀ args, is_Ok (JsonDocBuilder._create_arguments (PList args))
           = forallb json_arg_ok args)
  ∧ (∀ elem, is_Ok (XmlDocBuilder._create_arguments elem)
             = forallb xml_arg_ok (findall elem "arguments/arg")).
Proof.
  split.
  - intros args. unfold JsonDocBuilder._create_arguments. simpl.
    apply for_each_is_Ok, json_step_is_Ok.
  - intros elem. unfold XmlDocBuilder._create_arguments.
    apply for_each_is_Ok, xml_step_is_Ok.
Qed.

(** X2: the two variants agree: when the elements of a variant-A sequence
    read as the same records as the named [arg] elements of a variant-B
    keyword, the two reconstructions give the same result, be it a
    specification or an exception. *)
Theorem variants_agree_on_equal_records (args : list pyval) (elem : Element) :
  Forall2 (λ arg p, json_record arg = Some p) args
    (omap xml_record (findall elem "arguments/arg")) →
  JsonDocBuilder._create_arguments (PList args)
  = XmlDocBuilder._create_arguments elem.
Proof.
  intros H. unfold JsonDocBuilder._create_arguments, XmlDocBuilder._create_arguments.
  simpl. rewrite xml_loop_place.
  assert (Forall (λ arg, is_Some (json_record arg)) args
          ∧ omap json_record args = omap xml_record (findall elem "arguments/arg"))
    as [Hall <-].
  { induction H as [|arg p args ps Hp _ [IH1 IH2]]; [done|].
    split; [constructor; eauto|]. simpl. rewrite Hp. by f_equal. }
  by apply json_loop_place.
Qed.

Lemma variants_agree_on_equal_records_witness :
  JsonDocBuilder._create_arguments (PList [separator_record; y_record_text])
  = XmlDocBuilder._create_arguments (kw_element [] [separator_arg; y_arg]).
Proof.
  apply variants_agree_on_equal_records. by repeat constructor.
Defined.

(** X3: the default kept for a name is that of the last record of that name
    that supplied one: a later record of the name without a default leaves
    it in place.  In variant B the default is the text of the [default]
    child, the empty text when it has none. *)
Theorem last_supplied_default_is_kept :
  (∀ args spec,
     JsonDocBuilder._create_arguments (PList args) = Ok spec →
     ∃ ps, Forall2 (λ arg p, json_record arg = Some p) args ps
           ∧ ∀ k, defaults spec !! k = last (omap p_default (named k ps)))
  ∧ (∀ elem spec,
     XmlDocBuilder._create_arguments elem = Ok spec →
     ∀ k, defaults spec !! k
          = last (omap p_default
                    (named k (omap xml_record (findall elem "arguments/arg"))))).
Proof.
  assert (∀ ps spec, for_each place ArgumentSpec_new ps = Ok spec →
            ∀ k, defaults spec !! k = last (omap p_default (named k ps))) as Hd.
  { intros ps spec (_ & Hd & _)%place_all k. rewrite Hd. simpl.
    rewrite lookup_empty. by destruct (last _). }
  split.
  - intros args spec H. unfold JsonDocBuilder._create_arguments in H. simpl in H.
    destruct (json_loop_Ok _ _ _ H) as [Hall Hloop].
    exists (omap json_record args). split; [by apply json_records_all|by apply Hd].
  - intros elem spec H. unfold XmlDocBuilder._create_arguments in H.
    rewrite xml_loop_place in H. by apply Hd.
Qed.

Lemma last_supplied_default_is_kept_witness :
  ∃ ps, Forall2 (λ arg p, json_record arg = Some p) [y_record; y_again_record] ps
        ∧ ∀ k, defaults (mkArgumentSpec [] [PStr "y"] PNone [PStr "y"] PNone
                           {[ KStr "y" := PInt 5 ]} {[ KStr "y" := [] ]}) !! k
               = last (omap p_default (named k ps)).
Proof.
  destruct last_supplied_default_is_kept as [HA _].
  apply (HA [y_record; y_again_record]). by vm_compute.
Defined.

(** ** Which exceptions the builds raise, and when they return *)

Lemma no_DataError_Ok {A} (a : A) : no_DataError (Ok a).
Proof. by intros msg. Qed.

Lemma no_DataError_bind {A B} (m : result A) (f : A → result B) :
  no_DataError m → (∀ a, no_DataError (f a)) → no_DataError (m ≫= f).
Proof.
  intros Hm Hf msg. destruct m as [a|e]; simpl; [apply Hf|].
  intros [= ->]. by apply (Hm msg).
Qed.

Lemma no_DataError_comprehension {A B} (f : A → result B) (l : list A) :
  (∀ a, no_DataError (f a)) → no_DataError (comprehension f l).
Proof.
  intros Hf. induction l as [|a l IH]; simpl; [apply no_DataError_Ok|].
  apply no_DataError_bind; [done|]. intros b.
  apply no_DataError_bind; [done|]. intros bs. apply no_DataError_Ok.
Qed.

Lemma no_DataError_for_each {S A} (body : S → A → result S) (s : S) (l : list A) :
  (∀ s a, no_DataError (body s a)) → no_DataError (for_each body s l).
Proof.
  intros Hb. revert s. induction l as [|a l IH]; intros s; simpl.
  - apply no_DataError_Ok.
  - by apply no_DataError_bind.
Qed.

Lemma no_DataError_low {A} (r : result A) :
  (∀ e, r = Raise e → is_DataError e = false) → no_DataError r.
Proof. intros H msg E. by specialize (H _ E). Qed.

Lemma no_DataError_getitem (v : pyval) (k : string) : no_DataError (getitem v k).
Proof.
  apply no_DataError_low. intros e He%getitem_Raise. by destruct e.
Qed.

Lemma no_DataError_get (v : pyval) (k : string) (d : pyval) : no_DataError (get v k d).
Proof. intros msg. by destruct v. Qed.

Lemma no_DataError_iter (v : pyval) : no_DataError (iter v).
Proof. intros msg. by destruct v. Qed.

Lemma no_DataError_int (v : pyval) : no_DataError (int v).
Proof. intros msg. destruct v; simpl; try done. by destruct (int_of_str s). Qed.

Lemma no_DataError_find_text (elem : Element) (path : string) :
  no_DataError (XmlDocBuilder.find_text elem path).
Proof. intros msg. unfold XmlDocBuilder.find_text. by destruct (find elem path). Qed.

Lemma no_DataError_json_arguments (arguments : pyval) :
  no_DataError (JsonDocBuilder._create_arguments arguments).
Proof.
  unfold JsonDocBuilder._create_arguments.
  apply no_DataError_bind; [apply no_DataError_iter|]. intros args.
  apply no_DataError_for_each. intros s a. apply no_DataError_low.
  intros e He%json_step_Raise. by destruct e.
Qed.

Lemma no_DataError_xml_arguments (elem : Element) :
  no_DataError (XmlDocBuilder._create_arguments elem).
Proof.
  unfold XmlDocBuilder._create_arguments.
  apply no_DataError_for_each. intros s a. apply no_DataError_low.
  by intros e [kind ->]%xml_step_Raise.
Qed.

Ltac no_data_step :=
  first
    [ apply no_DataError_Ok
    | apply no_DataError_getitem
    | apply no_DataError_get
    | apply no_DataError_iter
    | apply no_DataError_int
    | apply no_DataError_find_text
    | apply no_DataError_json_arguments
    | apply no_DataError_xml_arguments
    | apply no_DataError_bind; [|intros ?]
    | apply no_DataError_comprehension; intros ? ].

Lemma no_DataError_json_keyword (kw : pyval) :
  no_DataError (JsonDocBuilder._create_keyword kw).
Proof. unfold JsonDocBuilder._create_keyword. repeat no_data_step. Qed.

Lemma no_DataError_json_data_types (data_types : pyval) :
  no_DataError (JsonDocBuilder._create_data_types data_types).
Proof.
  unfold JsonDocBuilder._create_data_types, JsonDocBuilder._create_enum_doc,
    JsonDocBuilder._create_typed_dict_doc, JsonDocBuilder._create_custom_doc,
    JsonDocBuilder._create_enum_member, JsonDocBuilder._create_typed_dict_item.
  repeat no_data_step.
Qed.

Lemma no_DataError_build_from_dict (spec : pyval) :
  no_DataError (JsonDocBuilder.build_from_dict spec).
Proof.
  unfold JsonDocBuilder.build_from_dict.
  repeat first [ apply no_DataError_json_keyword
               | apply no_DataError_json_data_types
               | no_data_step ].
Qed.

(** X4: the one domain error of variant A is that of a path at which there
    is no file: [build] raises a [DataError] exactly then, with the message
    "Spec file '<path>' does not exist."; whatever is wrong with a document
    that was read surfaces as one of Python's own exceptions. *)
Theorem json_build_domain_error
  (fs : string → file_state pyval) (path : string) (msg : string) :
  JsonDocBuilder.build fs path = Raise (DataError msg) ↔
  isfile (fs path) = false
  ∧ msg = "Spec file '" +:+ path +:+ "' does not exist.".
Proof.
  unfold JsonDocBuilder.build, JsonDocBuilder._parse_spec_json. split.
  - destruct (fs path) as [| | |spec] eqn:E; simpl; try done.
    + by intros [= <-].
    + intros H. by apply no_DataError_build_from_dict in H.
  - intros [-> ->]. done.
Qed.

Lemma no_DataError_xml_keyword (elem : Element) (lib_source : pyval) :
  no_DataError (XmlDocBuilder._create_keyword elem lib_source).
Proof. unfold XmlDocBuilder._create_keyword. repeat no_data_step. Qed.

Lemma no_DataError_xml_data_types (spec : Element) :
  no_DataError (XmlDocBuilder._create_data_types spec).
Proof.
  unfold XmlDocBuilder._create_data_types, XmlDocBuilder._create_enum_doc,
    XmlDocBuilder._create_typed_dict_doc, XmlDocBuilder._create_custom_doc.
  repeat no_data_step.
Qed.

Lemma xml_build_after_parse (fs : string → file_state Element) (path : string)
  (msg : string) :
  XmlDocBuilder.build fs path = Raise (DataError msg) →
  XmlDocBuilder._parse_spec fs path = Raise (DataError msg).
Proof.
  unfold XmlDocBuilder.build.
  intros [H|(root & _ & H)]%bind_Raise; [done|]. exfalso. revert H.
  apply no_DataError_bind; [by destruct (attr root "type")|]. intros ?.
  unfold XmlDocBuilder._create_keywords.
  repeat first [ apply no_DataError_xml_keyword
               | apply no_DataError_xml_data_types
               | no_data_step ].
Qed.

(** X5: the domain errors of variant B are the three of [_parse_spec], and
    [build] raises each exactly in its case: no file at the path; a root
    that is not [keywordspec]; a [specversion] that is neither "3" nor "4".
    Whatever else is wrong with a document surfaces as one of Python's own
    exceptions. *)
Theorem xml_build_domain_error
  (fs : string → file_state Element) (path : string) (msg : string) :
  XmlDocBuilder.build fs path = Raise (DataError msg) ↔
  (isfile (fs path) = false
   ∧ msg = "Spec file '" +:+ path +:+ "' does not exist.")
  ∨ (∃ root, fs path = Parsed root ∧ tag root ≠ "keywordspec"
             ∧ msg = "Invalid spec file '" +:+ path +:+ "'.")
  ∨ (∃ root, fs path = Parsed root ∧ tag root = "keywordspec"
             ∧ attr root "specversion" ≠ Some "3"
             ∧ attr root "specversion" ≠ Some "4"
             ∧ msg = "Invalid spec file version '"
                     +:+ default "None" (attr root "specversion")
                     +:+ "'. Supported versions are 3 and 4.").
Proof.
  split.
  - intros H%xml_build_after_parse. unfold XmlDocBuilder._parse_spec in H.
    destruct (fs path) as [| | |root] eqn:E; simpl in H; try done.
    { left. by injection H as <-. }
    right. destruct (String.eqb_spec (tag root) "keywordspec") as [Htag|Htag]; simpl in H.
    + right. exists root. split; [done|]. split; [done|].
      destruct (bool_decide (attr root "specversion" = Some "3")) eqn:H3; [done|].
      destruct (bool_decide (attr root "specversion" = Some "4")) eqn:H4; [done|].
      apply bool_decide_eq_false in H3, H4. simpl in H. injection H as <-.
      by repeat split.
    + left. exists root. by injection H as <-.
  - unfold XmlDocBuilder.build, XmlDocBuilder._parse_spec.
    intros [[-> ->]|[(root & -> & Htag & ->)|(root & -> & Htag & H3 & H4 & ->)]];
      simpl; [done| |].
    + apply String.eqb_neq in Htag. by rewrite Htag.
    + apply String.eqb_eq in Htag. rewrite Htag. simpl.
      rewrite !bool_decide_eq_false_2 by done. simpl.
      by destruct (attr root "specversion").
Qed.









(** X7: a field that build reads unconditionally and that is missing
    surfaces as [AttributeError]: a document that passes the root and version
    checks and lacks the [type] attribute, the [version] child or the [doc]
    child makes [build] raise it, whatever its [lineno]. *)
Theorem xml_missing_field_raises
  (fs : string → file_state Element) (path : string) (root : Element) :
  XmlDocBuilder._parse_spec fs path = Ok root →
  attr root "type" = None ∨ find root "version" = None ∨ find root "doc" = None →
  XmlDocBuilder.build fs path = Raise AttributeError.
Proof.
  intros Hparse Hmiss. unfold XmlDocBuilder.build. rewrite Hparse. simpl.
  destruct (attr root "type") as [t|]; [|done]. simpl.
  unfold XmlDocBuilder.find_text.
  destruct (find root "version") as [v|]; [|done]. simpl.
  destruct (find root "doc") as [d|]; [|done].
  by destruct Hmiss as [?|[?|?]].
Qed.

Lemma xml_missing_field_raises_witness :
  XmlDocBuilder.build
    (λ _, Parsed (mkElement "keywordspec" [("specversion", "4"); ("lineno", "1")]
                    None [leaf "version" "1.0"; leaf "doc" "A library."]))
    "lib.xml"
  = Raise AttributeError.
Proof.
  eapply xml_missing_field_raises; [reflexivity|]. by left.
Defined.

(** X8: what variant A does without a top-level field it reads with
    [spec[...]]: the build raises the [KeyError] of the first of them, in
    reading order, that the document lacks; a document that is no dict
    raises [TypeError]. *)
Theorem json_missing_field_raises :
  (∀ d pre k post,
     json_required_fields = (pre ++ k :: post)%list →
     Forall (λ k', is_Some (assoc k' d)) pre →
     assoc k d = None →
     JsonDocBuilder.build_from_dict (PDict d) = Raise (KeyError (PStr k)))
  ∧ (∀ spec, (∀ d, spec ≠ PDict d) →
     JsonDocBuilder.build_from_dict spec = Raise TypeError).
Proof.
  split.
  - intros d pre k post Heq Hpre Hk.
    unfold json_required_fields in Heq. unfold JsonDocBuilder.build_from_dict, getitem.
    do 7 (destruct pre as [|k0 pre];
          [ injection Heq as <- _; by rewrite Hk
          | injection Heq as <- Heq;
            apply Forall_cons in Hpre as [[? ->] Hpre];
            cbn [mbind result_mbind result_bind] ]).
    by destruct pre.
  - intros spec Hspec. destruct spec; try done. by destruct (Hspec d).
Qed.

Lemma json_missing_field_raises_witness :
  JsonDocBuilder.build_from_dict (PDict [("name", PStr "Lib"); ("doc", PStr "A library.")])
  = Raise (KeyError (PStr "version"))
  ∧ JsonDocBuilder.build_from_dict (PList []) = Raise TypeError.
Proof.
  destruct json_missing_field_raises as [HA HB]. split.
  - apply (HA _ ["name"; "doc"] "version" ["type"; "scope"; "docFormat"; "source"]).
    + reflexivity.
    + repeat constructor; by eexists.
    + reflexivity.
  - by apply HB.
Defined.

Lemma upper_ascii_idemp (a : ascii) : upper_ascii (upper_ascii a) = upper_ascii a.
Proof. destruct a as [[] [] [] [] [] [] [] []]; reflexivity. Qed.

Lemma upper_idemp (s : string) : upper (upper s) = upper s.
Proof.
  induction s as [|a s IH]; simpl; [done|]. by rewrite upper_ascii_idemp, IH.
Qed.

Lemma xml_keyword_Ok (elem : Element) (lib_source : pyval) (kw : KeywordDoc.t) :
  XmlDocBuilder._create_keyword elem lib_source = Ok kw →
  KeywordDoc.name kw = PStr (default EmptyString (attr elem "name"))
  ∧ XmlDocBuilder._create_arguments elem = Ok (KeywordDoc.args kw)
  ∧ KeywordDoc.source kw = match attr elem "source" with
                           | Some (String a s) => PStr (String a s)
                           | _ => lib_source
                           end.
Proof.
  unfold XmlDocBuilder._create_keyword. intros H.
  apply bind_Ok in H as (args & Hargs & H).
  do 3 (apply bind_Ok in H as (? & _ & H)). injection H as <-. simpl.
  split; [by destruct (attr elem "name")|done].
Qed.

Lemma xml_build_Ok (fs : string → file_state Element) (path : string)
  (libdoc : LibraryDoc.t) :
  XmlDocBuilder.build fs path = Ok libdoc →
  ∃ root t, fs path = Parsed root ∧ attr root "type" = Some t
    ∧ LibraryDoc.type libdoc = PStr (upper t)
    ∧ LibraryDoc.doc_format libdoc = match attr root "format" with
                                     | Some (String a s) => PStr (String a s)
                                     | _ => PStr "ROBOT"
                                     end
    ∧ LibraryDoc.source libdoc = str_or_None (attr root "source")
    ∧ XmlDocBuilder._create_keywords root "inits/init" (LibraryDoc.source libdoc)
      = Ok (LibraryDoc.inits libdoc)
    ∧ XmlDocBuilder._create_keywords root "keywords/kw" (LibraryDoc.source libdoc)
      = Ok (LibraryDoc.keywords libdoc)
    ∧ XmlDocBuilder._create_data_types root = Ok (LibraryDoc.data_types libdoc).
Proof.
  unfold XmlDocBuilder.build. intros (root & Hroot%parse_spec_Ok & H)%bind_Ok.
  apply bind_Ok in H as (ty & Hty & H).
  do 3 (apply bind_Ok in H as (? & _ & H)).
  apply bind_Ok in H as (inits & Hinits & H).
  apply bind_Ok in H as (kws & Hkws & H).
  apply bind_Ok in H as (dts & Hdts & H). injection H as <-. simpl.
  destruct (attr root "type") as [t|] eqn:Ht; [|done]. injection Hty as <-.
  by exists root, t.
Qed.

(** X9: in variant B a keyword or init has the source its element gives,
    and the source of the library when the element gives none or an empty
    one; the source of the library is that of the root, or [None]. *)
Theorem xml_callable_source_falls_back
  (fs : string → file_state Element) (path : string) (root : Element)
  (libdoc : LibraryDoc.t) :
  fs path = Parsed root →
  XmlDocBuilder.build fs path = Ok libdoc →
  LibraryDoc.source libdoc = str_or_None (attr root "source")
  ∧ Forall2 (callable_source (LibraryDoc.source libdoc))
      (findall root "inits/init") (LibraryDoc.inits libdoc)
  ∧ Forall2 (callable_source (LibraryDoc.source libdoc))
      (findall root "keywords/kw") (LibraryDoc.keywords libdoc).
Proof.
  intros Hfs (r & t & Hr & _ & _ & _ & Hsrc & Hinits & Hkws & _)%xml_build_Ok.
  rewrite Hfs in Hr. injection Hr as <-.
  unfold XmlDocBuilder._create_keywords in *.
  apply comprehension_Forall2 in Hinits, Hkws.
  assert (∀ elem kw,
            XmlDocBuilder._create_keyword elem (LibraryDoc.source libdoc) = Ok kw →
            callable_source (LibraryDoc.source libdoc) elem kw) as Hone.
  { intros elem kw (_ & _ & Hsrc')%xml_keyword_Ok. unfold callable_source.
    rewrite Hsrc'. repeat split.
    - by intros ->.
    - by intros ->.
    - intros s -> Hs. by destruct s. }
  split; [done|]. split; (eapply Forall2_impl; [done|]); apply Hone.
Qed.

(** X10: [_create_keywords] of variant B returns one keyword documentation
    for each element the path selects, in document order: each has the
    [name] attribute of its element as name, the empty text for an element
    without one, and the parameters reconstructed from that element. *)
Theorem xml_create_keywords_in_order
  (spec : Element) (path : string) (lib_source : pyval) (kws : list KeywordDoc.t) :
  XmlDocBuilder._create_keywords spec path lib_source = Ok kws →
  map KeywordDoc.name kws
  = map (λ e, PStr (default EmptyString (attr e "name"))) (findall spec path)
  ∧ Forall2 (λ e k, XmlDocBuilder._create_arguments e = Ok (KeywordDoc.args k))
      (findall spec path) kws.
Proof.
  unfold XmlDocBuilder._create_keywords. intros H%comprehension_Forall2.
  induction H as [|e k es ks Hk _ [IH1 IH2]]; [by split|].
  apply xml_keyword_Ok in Hk as (Hn & Ha & _). simpl. split.
  - by rewrite Hn, IH1.
  - by constructor.
Qed.

(** X11: the text fields of a document built by variant B: its type is the
    [type] attribute in upper case, hence in upper case itself; its
    documentation format is the [format] attribute, and "ROBOT" when the
    root has none or an empty one, so it is never empty. *)
Theorem xml_type_and_format_normalized
  (fs : string → file_state Element) (path : string) (root : Element)
  (libdoc : LibraryDoc.t) :
  fs path = Parsed root →
  XmlDocBuilder.build fs path = Ok libdoc →
  (∃ t, attr root "type" = Some t ∧ LibraryDoc.type libdoc = PStr (upper t))
  ∧ (∀ T, LibraryDoc.type libdoc = PStr T → upper T = T)
  ∧ (∃ f, LibraryDoc.doc_format libdoc = PStr f ∧ f ≠ EmptyString
          ∧ (attr root "format" = Some f
             ∨ (f = "ROBOT" ∧ (attr root "format" = None
                               ∨ attr root "format" = Some EmptyString)))).
Proof.
  intros Hfs (r & t & Hr & Ht & Hty & Hfmt & _)%xml_build_Ok.
  rewrite Hfs in Hr. injection Hr as <-.
  split; [by eauto|]. split.
  - intros T HT. rewrite Hty in HT. injection HT as <-. apply upper_idemp.
  - rewrite Hfmt. destruct (attr root "format") as [[|a s]|]; eexists;
      (split; [reflexivity|]); split; try done; by eauto.
Qed.

Lemma xml_callable_source_falls_back_witness :
  ∃ libdoc,
    XmlDocBuilder.build (λ _, Parsed spec_with_sources) "lib.xml" = Ok libdoc
    ∧ map KeywordDoc.source (LibraryDoc.keywords libdoc)
      = [PStr "other.py"; PStr "lib.py"; PStr "lib.py"]
    ∧ LibraryDoc.source libdoc = str_or_None (attr spec_with_sources "source")
    ∧ Forall2 (callable_source (LibraryDoc.source libdoc))
        (findall spec_with_sources "inits/init") (LibraryDoc.inits libdoc)
    ∧ Forall2 (callable_source (LibraryDoc.source libdoc))
        (findall spec_with_sources "keywords/kw") (LibraryDoc.keywords libdoc).
Proof.
  eexists. split; [by vm_compute|]. split; [by vm_compute|].
  eapply (xml_callable_source_falls_back (λ _, Parsed spec_with_sources) "lib.xml");
    by vm_compute.
Defined.

Lemma xml_create_keywords_in_order_witness :
  ∃ kws,
    XmlDocBuilder._create_keywords spec_with_sources "keywords/kw" PNone = Ok kws
    ∧ map KeywordDoc.name kws = [PStr "Run"; PStr "Stop"; PStr EmptyString].
Proof.
  assert (∃ l, XmlDocBuilder._create_keywords spec_with_sources "keywords/kw" PNone
               = Ok l) as [l Hl] by (eexists; by vm_compute).
  exists l. split; [done|].
  destruct (xml_create_keywords_in_order _ _ _ _ Hl) as [Hn _].
  etrans; [exact Hn|by vm_compute].
Defined.

Lemma xml_type_and_format_normalized_witness :
  ∃ libdoc,
    XmlDocBuilder.build (λ _, Parsed spec_with_sources) "lib.xml" = Ok libdoc
    ∧ LibraryDoc.type libdoc = PStr "LIBRARY"
    ∧ LibraryDoc.doc_format libdoc = PStr "ROBOT"
    ∧ ∀ T, LibraryDoc.type libdoc = PStr T → upper T = T.
Proof.
  eexists. split; [by vm_compute|]. split; [by vm_compute|]. split; [by vm_compute|].
  eapply (xml_type_and_format_normalized (λ _, Parsed spec_with_sources) "lib.xml");
    by vm_compute.
Defined.

Lemma json_keyword_lineno (kw : pyval) (k : KeywordDoc.t) :
  JsonDocBuilder._create_keyword kw = Ok k → json_lineno kw (KeywordDoc.lineno k).
Proof.
  unfold JsonDocBuilder._create_keyword. intros H.
  apply bind_Ok in H as (? & _ & H).
  apply bind_Ok in H as (? & (d & -> & _)%getitem_Ok & H).
  do 5 (apply bind_Ok in H as (? & _ & H)).
  apply bind_Ok in H as (l & Hl & H).
  apply bind_Ok in H as (z & Hz & [= <-]). simpl.
  simpl in Hl. injection Hl as <-.
  exists d. split; [done|]. split.
  - intros Hn. rewrite Hn in Hz. by injection Hz.
  - intros z' Hn. rewrite Hn in Hz. by injection Hz.
Qed.

(** X12: the line numbers of variant A: the library and every keyword get
    [-1] without a [lineno] and keep a [lineno] that is an integer as it is,
    zero included (variant B turns the zero of the root into [-1]). *)
Theorem json_lineno_defaults (spec : pyval) (kws : list pyval) (libdoc : LibraryDoc.t) :
  getitem spec "keywords" = Ok (PList kws) →
  JsonDocBuilder.build_from_dict spec = Ok libdoc →
  json_lineno spec (LibraryDoc.lineno libdoc)
  ∧ Forall2 (λ kw k, json_lineno kw (KeywordDoc.lineno k))
      kws (LibraryDoc.keywords libdoc).
Proof.
  intros Hk H. unfold JsonDocBuilder.build_from_dict in H.
  apply bind_Ok in H as (? & (d & -> & _)%getitem_Ok & H).
  do 6 (apply bind_Ok in H as (? & _ & H)).
  apply bind_Ok in H as (l & Hl & H).
  apply bind_Ok in H as (z & Hz & H).
  do 3 (apply bind_Ok in H as (? & _ & H)).
  rewrite Hk in H. apply bind_Ok in H as (? & [= <-] & H).
  apply bind_Ok in H as (? & [= <-] & H).
  apply bind_Ok in H as (ks & Hks%comprehension_Forall2 & H).
  do 2 (apply bind_Ok in H as (? & _ & H)). injection H as <-. simpl.
  simpl in Hl. injection Hl as <-. split.
  - exists d. split; [done|]. split.
    + intros Hn. rewrite Hn in Hz. by injection Hz.
    + intros z' Hn. rewrite Hn in Hz. by injection Hz.
  - eapply Forall2_impl; [done|]. apply json_keyword_lineno.
Qed.

Lemma json_lineno_defaults_witness :
  (∃ libdoc,
     JsonDocBuilder.build_from_dict (json_library_with_lineno []) = Ok libdoc
     ∧ LibraryDoc.lineno libdoc = -1
     ∧ json_lineno (json_library_with_lineno []) (LibraryDoc.lineno libdoc))
  ∧ (∃ libdoc,
       JsonDocBuilder.build_from_dict
         (json_library_with_lineno [("lineno", PInt 0)]) = Ok libdoc
       ∧ LibraryDoc.lineno libdoc = 0
       ∧ json_lineno (json_library_with_lineno [("lineno", PInt 0)])
           (LibraryDoc.lineno libdoc)).
Proof.
  split; eexists; (split; [by vm_compute|]); (split; [by vm_compute|]).
  - eapply (json_lineno_defaults (json_library_with_lineno [])); by vm_compute.
  - eapply (json_lineno_defaults (json_library_with_lineno [("lineno", PInt 0)]));
      by vm_compute.
Defined.

(** ** Data types *)

Lemma comprehension_map {A B C} (f : A → result B) (g : B → C) (h : A → C)
  (l : list A) (l' : list B) :
  (∀ a b, f a = Ok b → g b = h a) →
  comprehension f l = Ok l' → map g l' = map h l.
Proof.
  intros Hf H%comprehension_Forall2.
  induction H as [|a b l l' Hab _ IH]; [done|]. simpl. by rewrite (Hf _ _ Hab), IH.
Qed.

(** X13: the data types of variant B come out as the enums, then the typed
    dicts, then the customs, whatever the order of the three sections in the
    document, each group one for one and in document order, named by the
    [name] attribute; the members of an enum are its [member] elements in
    order. *)
Theorem xml_data_types_in_order (spec : Element) (dts : list DataTypeDoc) :
  XmlDocBuilder._create_data_types spec = Ok dts →
  ∃ es ts cs,
    dts = (map Enum es ++ map TypedDict ts ++ map Custom cs)%list
    ∧ map EnumDoc.name es = map name_attr (findall spec "datatypes/enums/enum")
    ∧ map TypedDictDoc.name ts
      = map name_attr (findall spec "datatypes/typeddicts/typeddict")
    ∧ map CustomDoc.name cs = map name_attr (findall spec "datatypes/customs/custom")
    ∧ Forall2 (λ elem e, map EnumMember.name (EnumDoc.members e)
                         = map name_attr (findall elem "members/member"))
        (findall spec "datatypes/enums/enum") es
    ∧ map data_type_name dts = map name_attr (data_type_elements spec).
Proof.
  unfold XmlDocBuilder._create_data_types. intros H.
  apply bind_Ok in H as (es & Hes & H).
  apply bind_Ok in H as (ts & Hts & H).
  apply bind_Ok in H as (cs & Hcs & [= <-]).
  assert (map EnumDoc.name es = map name_attr (findall spec "datatypes/enums/enum")) as He.
  { eapply comprehension_map; [|done]. intros a b Hab.
    unfold XmlDocBuilder._create_enum_doc in Hab.
    by apply bind_Ok in Hab as (? & _ & [= <-]). }
  assert (map TypedDictDoc.name ts
          = map name_attr (findall spec "datatypes/typeddicts/typeddict")) as Ht.
  { eapply comprehension_map; [|done]. intros a b Hab.
    unfold XmlDocBuilder._create_typed_dict_doc in Hab.
    by apply bind_Ok in Hab as (? & _ & [= <-]). }
  assert (map CustomDoc.name cs
          = map name_attr (findall spec "datatypes/customs/custom")) as Hc.
  { eapply comprehension_map; [|done]. intros a b Hab.
    unfold XmlDocBuilder._create_custom_doc in Hab.
    by apply bind_Ok in Hab as (? & _ & [= <-]). }
  exists es, ts, cs. repeat split; try done.
  - apply comprehension_Forall2 in Hes. eapply Forall2_impl; [done|].
    intros elem e Hab. unfold XmlDocBuilder._create_enum_doc in Hab.
    apply bind_Ok in Hab as (? & _ & [= <-]). simpl.
    by rewrite map_map.
  - unfold data_type_elements. rewrite !map_app, !map_map. simpl.
    by rewrite <- He, <- Ht, <- Hc.
Qed.

Lemma xml_data_types_in_order_witness :
  ∃ dts,
    XmlDocBuilder._create_data_types spec_with_data_types = Ok dts
    ∧ map data_type_name dts = [PStr "Color"; PStr "Point"; PStr "Date"]
    ∧ ∃ es ts cs, dts = (map Enum es ++ map TypedDict ts ++ map Custom cs)%list
                  ∧ List.length es = 1%nat ∧ List.length ts = 1%nat
                  ∧ List.length cs = 1%nat.
Proof.
  eexists. split; [by vm_compute|]. split; [by vm_compute|].
  destruct (xml_data_types_in_order spec_with_data_types _ eq_refl)
    as (es & ts & cs & Hd & He & Ht & Hc & _).
  exists es, ts, cs. split; [exact Hd|].
  apply (f_equal List.length) in He, Ht, Hc. rewrite !length_map in He, Ht, Hc.
  by rewrite He, Ht, Hc.
Defined.

Lemma json_section_iter (d : list (string * pyval)) (key : string) (l : list pyval) :
  get (PDict d) key (PList []) ≫= iter = Ok l → json_section d key = l.
Proof.
  unfold json_section. simpl. destruct (assoc key d) as [v|]; simpl.
  - by intros ->.
  - by intros [= <-].
Qed.

(** X14: the data types of variant A come out as the [enums], then the
    [typedDicts], then the [customs] of the [dataTypes] dict, each group one
    for one and in order, a section the dict does not have counting as
    empty; a [dataTypes] that is no dict raises [AttributeError]. *)
Theorem json_data_types_in_order :
  (∀ d dts,
     JsonDocBuilder._create_data_types (PDict d) = Ok dts →
     ∃ es ts cs,
       dts = (map Enum es ++ map TypedDict ts ++ map Custom cs)%list
       ∧ Forall2 (λ item e, getitem item "name" = Ok (EnumDoc.name e))
           (json_section d "enums") es
       ∧ Forall2 (λ item t, getitem item "name" = Ok (TypedDictDoc.name t))
           (json_section d "typedDicts") ts
       ∧ Forall2 (λ item c, getitem item "name" = Ok (CustomDoc.name c))
           (json_section d "customs") cs)
  ∧ (∀ v, (∀ d, v ≠ PDict d) →
     JsonDocBuilder._create_data_types v = Raise AttributeError).
Proof.
  split.
  - intros d dts H. unfold JsonDocBuilder._create_data_types in H.
    apply bind_Ok in H as (l1 & Hl1 & H). apply bind_Ok in H as (i1 & Hi1 & H).
    apply bind_Ok in H as (es & Hes%comprehension_Forall2 & H).
    apply bind_Ok in H as (l2 & Hl2 & H). apply bind_Ok in H as (i2 & Hi2 & H).
    apply bind_Ok in H as (ts & Hts%comprehension_Forall2 & H).
    apply bind_Ok in H as (l3 & Hl3 & H). apply bind_Ok in H as (i3 & Hi3 & H).
    apply bind_Ok in H as (cs & Hcs%comprehension_Forall2 & [= <-]).
    assert (json_section d "enums" = i1) as ->.
    { apply json_section_iter. by rewrite Hl1. }
    assert (json_section d "typedDicts" = i2) as ->.
    { apply json_section_iter. by rewrite Hl2. }
    assert (json_section d "customs" = i3) as ->.
    { apply json_section_iter. by rewrite Hl3. }
    exists es, ts, cs. split; [done|]. repeat split.
    + eapply Forall2_impl; [done|]. intros item e Hab.
      unfold JsonDocBuilder._create_enum_doc in Hab.
      apply bind_Ok in Hab as (n & Hn & Hab).
      do 4 (apply bind_Ok in Hab as (? & _ & Hab)). by injection Hab as <-.
    + eapply Forall2_impl; [done|]. intros item e Hab.
      unfold JsonDocBuilder._create_typed_dict_doc in Hab.
      apply bind_Ok in Hab as (n & Hn & Hab).
      do 4 (apply bind_Ok in Hab as (? & _ & Hab)). by injection Hab as <-.
    + eapply Forall2_impl; [done|]. intros item e Hab.
      unfold JsonDocBuilder._create_custom_doc in Hab.
      apply bind_Ok in Hab as (n & Hn & Hab).
      apply bind_Ok in Hab as (? & _ & Hab). by injection Hab as <-.
  - intros v Hv. destruct v; try done. by destruct (Hv d).
Qed.

Lemma json_data_types_in_order_witness :
  (∃ dts,
     JsonDocBuilder._create_data_types (PDict json_data_types) = Ok dts
     ∧ map data_type_name dts = [PStr "Point"; PStr "Date"]
     ∧ ∃ es ts cs,
         dts = (map Enum es ++ map TypedDict ts ++ map Custom cs)%list
         ∧ Forall2 (λ item e, getitem item "name" = Ok (EnumDoc.name e))
             (json_section json_data_types "enums") es)
  ∧ JsonDocBuilder._create_data_types (PList []) = Raise AttributeError.
Proof.
  destruct json_data_types_in_order as [HA HB]. split.
  - eexists. split; [by vm_compute|]. split; [by vm_compute|].
    destruct (HA json_data_types _ eq_refl) as (es & ts & cs & Hd & He & _).
    by exists es, ts, cs.
  - by apply HB.
Defined.

(** ** The properties above on sample documents *)

Lemma reconstruction_returns_exactly_witness :
  is_Ok (JsonDocBuilder._create_arguments (PList [separator_record; y_record])) = true
  ∧ is_Ok (JsonDocBuilder._create_arguments (PList [y_record; separator_record_bare]))
    = false
  ∧ is_Ok (XmlDocBuilder._create_arguments
             (kw_element [] [nameless_bogus_arg; y_arg])) = true
  ∧ is_Ok (XmlDocBuilder._create_arguments (kw_element [] [y_arg; bogus_arg])) = false.
Proof.
  destruct reconstruction_returns_exactly as [HA HB].
  rewrite !HA, !HB. by vm_compute.
Defined.

Lemma json_build_domain_error_witness :
  JsonDocBuilder.build (λ _, NotAFile) "lib.json"
  = Raise (DataError "Spec file 'lib.json' does not exist.")
  ∧ ∀ msg, JsonDocBuilder.build (λ _, Parsed (PList [])) "lib.json"
           ≠ Raise (DataError msg).
Proof.
  split.
  - by apply json_build_domain_error.
  - intros msg [H _]%json_build_domain_error. done.
Defined.

Lemma xml_build_domain_error_witness :
  XmlDocBuilder.build (λ _, Parsed (mkElement "library" [] None [])) "lib.xml"
  = Raise (DataError "Invalid spec file 'lib.xml'.")
  ∧ ∀ msg, XmlDocBuilder.build (λ _, Parsed spec_without_lineno) "lib.xml"
           ≠ Raise (DataError msg).
Proof.
  split.
  - apply xml_build_domain_error. right. left. eexists. by repeat split.
  - intros msg [[H _]|[(root & [= <-] & Htag & _)|(root & [= <-] & _ & H3 & _)]]
      %xml_build_domain_error; done.
Defined.

